(** * github-release-get: a shallow embedding of [main.go]

    The program resolves the latest published release of a GitHub
    repository, picks one asset by a glob pattern and stores it in the
    current directory.  Everything lives in one Go function, [run], which
    is embedded below as a computation over an explicit world (the files
    of the machine and the log of network requests) with early returns
    modelled by an error monad.

    Strings are Go strings, that is byte sequences: [string] of the
    standard library, one [ascii] per byte.  [int64] and [time.Duration]
    values are integers of [Z]; the program never does arithmetic on
    them, it only compares them with zero. *)

From Stdlib Require Import ZArith Ascii String Strings.Byte List Lia Bool.
From stdpp Require Import base option list strings gmap.

Local Open Scope string_scope.
Local Open Scope Z_scope.

(** ** Errors

    Go's [error] values.  An error made by [fmt.Errorf] keeps its format
    string and its arguments, exactly as the call is written in the
    source; errors that libraries hand back are kept apart. *)

Inductive fmtArg : Type :=
| ArgString (s : string)            (* a string, printed by %q or %s *)
| ArgStrings (l : list string).     (* a []string, printed by %v *)

Inductive error : Type :=
| Errorf (format : string) (args : list fmtArg)   (* fmt.Errorf(format, args...) *)
| ErrBadPattern                                   (* path.ErrBadPattern *)
| ErrNotExist (path : string)                     (* the error of a stat on a missing path *)
| ExternalError (msg : string).                   (* any other error of a library or of the system *)

Inductive Result (A : Type) : Type :=
| Ok (a : A)
| Err (e : error).
Arguments Ok {A} a.
Arguments Err {A} e.

(** [os.IsNotExist(err)]: true exactly for the missing-path error; false for
    [nil] and for every other error. *)
Definition os_IsNotExist (err : option error) : bool :=
  match err with
  | Some (ErrNotExist _) => true
  | _ => false
  end.

(** ** Slices of strings

    [s[n:]], [s[0]] and [len(s) == 0] on Go strings. *)

Module str.

Fixpoint drop (n : nat) (s : string) : string :=
  match n, s with
  | O, _ => s
  | S n', String _ s' => drop n' s'
  | S _, EmptyString => EmptyString
  end.

Definition head (s : string) : ascii :=
  match s with String c _ => c | EmptyString => zero end.

Definition isEmpty (s : string) : bool :=
  match s with EmptyString => true | _ => false end.

End str.

(** ** Package [path/filepath], Unix build

    [Separator] is the slash, there are no volume names. *)

Module filepath.

Definition Separator : ascii := "/"%char.

Definition IsPathSeparator (c : ascii) : bool := Ascii.eqb c Separator.

(** [FromSlash] replaces each slash by [Separator]; the library returns its
    argument at once when [Separator] is the slash. *)
Fixpoint replaceSlash (s : string) : string :=
  match s with
  | EmptyString => EmptyString
  | String c s' =>
      String (if Ascii.eqb c "/"%char then Separator else c) (replaceSlash s')
  end.

Definition FromSlash (p : string) : string :=
  if Ascii.eqb Separator "/"%char then p else replaceSlash p.

Definition VolumeName (p : string) : string := "".

(** [for len(path) > 0 && os.IsPathSeparator(path[len(path)-1])
       { path = path[0 : len(path)-1] }] *)
Fixpoint stripTrailing (p : string) : string :=
  match p with
  | EmptyString => EmptyString
  | String c p' =>
      match stripTrailing p' with
      | EmptyString => if IsPathSeparator c then EmptyString else String c EmptyString
      | t => String c t
      end
  end.

Fixpoint hasSeparator (p : string) : bool :=
  match p with
  | EmptyString => false
  | String c p' => IsPathSeparator c || hasSeparator p'
  end.

(** [i := len(path) - 1; for i >= 0 && !os.IsPathSeparator(path[i]) { i-- };
     if i >= 0 { path = path[i+1:] }]: what follows the last separator, the
    whole path when it has none. *)
Fixpoint lastElement (p : string) : string :=
  match p with
  | EmptyString => EmptyString
  | String c p' =>
      if hasSeparator p' then lastElement p'
      else if IsPathSeparator c then p' else p
  end.

Definition Base (path : string) : string :=
  match path with
  | EmptyString => "."
  | _ =>
      let path := stripTrailing path in
      let path := str.drop (String.length (VolumeName path)) path in
      let path := lastElement path in
      match path with
      | EmptyString => String Separator EmptyString
      | _ => path
      end
  end.

End filepath.

(** ** Package [unicode/utf8]

    [DecodeRuneInString] reads the first UTF-8 sequence of a string: the
    rune and the number of bytes it takes, [(RuneError, 1)] for an invalid
    sequence and [(RuneError, 0)] for the empty string. *)

Module utf8.

Definition RuneError : Z := 65533.

Definition byte (c : ascii) : Z := Z.of_N (N_of_ascii c).

Definition between (lo hi b : Z) : bool := (lo <=? b) && (b <=? hi).

Definition DecodeRuneInString (s : string) : Z * nat :=
  match s with
  | EmptyString => (RuneError, 0%nat)
  | String c0 s1 =>
      let b0 := byte c0 in
      if b0 <? 128 then (b0, 1%nat)
      else if (b0 <? 194) || (244 <? b0) then (RuneError, 1%nat)
      else
        let lo := if b0 =? 224 then 160 else if b0 =? 240 then 144 else 128 in
        let hi := if b0 =? 237 then 159 else if b0 =? 244 then 143 else 191 in
        match s1 with
        | EmptyString => (RuneError, 1%nat)
        | String c1 s2 =>
            let b1 := byte c1 in
            if negb (between lo hi b1) then (RuneError, 1%nat)
            else if b0 <? 224 then
              (Z.lor (Z.shiftl (Z.land b0 31) 6) (Z.land b1 63), 2%nat)
            else
              match s2 with
              | EmptyString => (RuneError, 1%nat)
              | String c2 s3 =>
                  let b2 := byte c2 in
                  if negb (between 128 191 b2) then (RuneError, 1%nat)
                  else if b0 <? 240 then
                    (Z.lor (Z.lor (Z.shiftl (Z.land b0 15) 12)
                                  (Z.shiftl (Z.land b1 63) 6))
                           (Z.land b2 63), 3%nat)
                  else
                    match s3 with
                    | EmptyString => (RuneError, 1%nat)
                    | String c3 _ =>
                        let b3 := byte c3 in
                        if negb (between 128 191 b3) then (RuneError, 1%nat)
                        else
                          (Z.lor (Z.lor (Z.lor (Z.shiftl (Z.land b0 7) 18)
                                               (Z.shiftl (Z.land b1 63) 12))
                                        (Z.shiftl (Z.land b2 63) 6))
                                 (Z.land b3 63), 4%nat)
                    end
              end
        end
  end.

End utf8.

(** ** Package [path]: [Match]

    The program matches asset names with [path.Match] (line 75); its
    documentation sends the reader to the library for the pattern syntax.
    The library is not part of the repository.  The program's theorems
    below are proved for an arbitrary matcher; this model of the library
    function (Go 1.16 and later, where a failed match still checks the rest
    of the pattern) serves to run the program on concrete patterns.

    The loops of the library walk over the pattern; the recursive functions
    take the length of the pattern as the bound of their iterations. *)

Module path.

Import str.

(** leading stars of a pattern *)
Fixpoint dropStars (pattern : string) : bool * string :=
  match pattern with
  | EmptyString => (false, pattern)
  | String c p' =>
      if Ascii.eqb c "*"%char then (true, snd (dropStars p')) else (false, pattern)
  end.

(** the scan loop of [scanChunk]: the chunk up to the next star that is not
    inside a character class, and the rest of the pattern *)
Fixpoint scanBody (inrange : bool) (pattern : string) : string * string :=
  match pattern with
  | EmptyString => (EmptyString, EmptyString)
  | String c p' =>
      let keep (r : string * string) := (String c (fst r), snd r) in
      if Ascii.eqb c "\"%char then
        match p' with
        | EmptyString => (pattern, EmptyString)
        | String c' p'' =>
            let r := scanBody inrange p'' in (String c (String c' (fst r)), snd r)
        end
      else if Ascii.eqb c "["%char then keep (scanBody true p')
      else if Ascii.eqb c "]"%char then keep (scanBody false p')
      else if Ascii.eqb c "*"%char then
        if inrange then keep (scanBody inrange p') else (EmptyString, pattern)
      else keep (scanBody inrange p')
  end.

Definition scanChunk (pattern : string) : bool * string * string :=
  let '(star, p) := dropStars pattern in
  let '(chunk, rest) := scanBody false p in
  (star, chunk, rest).

(** [getEsc] reads one possibly escaped character of a character class *)
Definition getEsc (chunk : string) : Z * string * option error :=
  if isEmpty chunk || Ascii.eqb (head chunk) "-"%char || Ascii.eqb (head chunk) "]"%char
  then (0, EmptyString, Some ErrBadPattern)
  else
    let chunk1 := if Ascii.eqb (head chunk) "\"%char then drop 1 chunk else chunk in
    if isEmpty chunk1 then (0, EmptyString, Some ErrBadPattern)
    else
      let '(r, n) := utf8.DecodeRuneInString chunk1 in
      let err := if (r =? utf8.RuneError) && Nat.eqb n 1
                 then Some ErrBadPattern else None in
      let nchunk := drop n chunk1 in
      let err := if isEmpty nchunk then Some ErrBadPattern else err in
      (r, nchunk, err).

(** the loop over the ranges of one character class; [r] is the rune of the
    name under test *)
Fixpoint classRanges (fuel : nat) (chunk : string) (r : Z)
         (matched : bool) (nrange : nat) : Result (string * bool) :=
  match fuel with
  | O => Err ErrBadPattern
  | S fuel' =>
      if negb (isEmpty chunk) && Ascii.eqb (head chunk) "]"%char
         && negb (Nat.eqb nrange 0)
      then Ok (drop 1 chunk, matched)
      else
        let '(lo, chunk1, err) := getEsc chunk in
        match err with
        | Some e => Err e
        | None =>
            if Ascii.eqb (head chunk1) "-"%char then
              let '(hi, chunk2, err2) := getEsc (drop 1 chunk1) in
              match err2 with
              | Some e => Err e
              | None =>
                  classRanges fuel' chunk2 r
                    (matched || ((lo <=? r) && (r <=? hi))) (S nrange)
              end
            else
              classRanges fuel' chunk1 r
                (matched || ((lo <=? r) && (r <=? lo))) (S nrange)
        end
  end.

(** [matchChunk]: does the chunk match a prefix of [s]?  After a failure the
    loop goes on over the chunk, to check its syntax, and reads [s] no more. *)
Fixpoint matchChunkLoop (fuel : nat) (chunk s : string) (failed : bool)
  : string * bool * option error :=
  match fuel with
  | O => (EmptyString, false, Some ErrBadPattern)
  | S fuel' =>
      match chunk with
      | EmptyString =>
          if failed then (EmptyString, false, None) else (s, true, None)
      | String c chunk' =>
          let failed := failed || isEmpty s in
          if Ascii.eqb c "["%char then
            let '(r, s1) :=
              if failed then (0, s)
              else let '(r, n) := utf8.DecodeRuneInString s in (r, drop n s) in
            let negated := negb (isEmpty chunk') && Ascii.eqb (head chunk') "^"%char in
            let chunk1 := if negated then drop 1 chunk' else chunk' in
            match classRanges fuel' chunk1 r false 0 with
            | Err e => (EmptyString, false, Some e)
            | Ok (chunk2, matched) =>
                matchChunkLoop fuel' chunk2 s1
                  (failed || Bool.eqb matched negated)
            end
          else if Ascii.eqb c "?"%char then
            if failed then matchChunkLoop fuel' chunk' s failed
            else
              let '(_, n) := utf8.DecodeRuneInString s in
              matchChunkLoop fuel' chunk' (drop n s)
                (Ascii.eqb (head s) "/"%char)
          else
            let chunk0 := if Ascii.eqb c "\"%char then chunk' else chunk in
            if isEmpty chunk0 then (EmptyString, false, Some ErrBadPattern)
            else if failed then matchChunkLoop fuel' (drop 1 chunk0) s failed
            else matchChunkLoop fuel' (drop 1 chunk0) (drop 1 s)
                   (negb (Ascii.eqb (head chunk0) (head s)))
      end
  end.

Definition matchChunk (chunk s : string) : string * bool * option error :=
  matchChunkLoop (S (String.length chunk)) chunk s false.

Inductive Skip : Type :=
| Found (t : string)
| Failed (e : error)
| NotFound.

(** the loop that tries the chunk after skipping [i+1] bytes of the name,
    never across a slash *)
Fixpoint skipLoop (chunk : string) (lastChunk : bool) (name : string) : Skip :=
  match name with
  | EmptyString => NotFound
  | String c rest =>
      if Ascii.eqb c "/"%char then NotFound
      else
        let '(t, ok, err) := matchChunk chunk rest in
        if ok then
          if lastChunk && negb (isEmpty t) then skipLoop chunk lastChunk rest
          else Found t
        else
          match err with
          | Some e => Failed e
          | None => skipLoop chunk lastChunk rest
          end
  end.

(** the closing loop: is the rest of the pattern well formed? *)
Fixpoint checkRest (fuel : nat) (pattern : string) : option error :=
  match fuel with
  | O => None
  | S fuel' =>
      if isEmpty pattern then None
      else
        let '(_, chunk, rest) := scanChunk pattern in
        match snd (matchChunk chunk EmptyString) with
        | Some e => Some e
        | None => checkRest fuel' rest
        end
  end.

Fixpoint hasSlash (name : string) : bool :=
  match name with
  | EmptyString => false
  | String c rest => Ascii.eqb c "/"%char || hasSlash rest
  end.

Fixpoint MatchLoop (fuel : nat) (pattern name : string) : bool * option error :=
  match fuel with
  | O => (isEmpty name, None)
  | S fuel' =>
      if isEmpty pattern then (isEmpty name, None)
      else
        let '(star, chunk, rest) := scanChunk pattern in
        if star && isEmpty chunk then (negb (hasSlash name), None)
        else
          let '(t, ok, err) := matchChunk chunk name in
          if ok && (isEmpty t || negb (isEmpty rest)) then MatchLoop fuel' rest t
          else
            match err with
            | Some e => (false, Some e)
            | None =>
                let giveUp :=
                  match checkRest (String.length rest) rest with
                  | Some e => (false, Some e)
                  | None => (false, None)
                  end in
                if star then
                  match skipLoop chunk (isEmpty rest) name with
                  | Found t' => MatchLoop fuel' rest t'
                  | Failed e => (false, Some e)
                  | NotFound => giveUp
                  end
                else giveUp
            end
  end.

Definition Match (pattern name : string) : bool * option error :=
  MatchLoop (String.length pattern) pattern name.

End path.

(** ** The libraries' own examples

    The cases of the test of [path.Match] in the library (match_test.go) and
    the examples of the documentation of [filepath.Base], to hold the two
    models against. *)

Module Conformance.

Definition good : bool * option error := (true, None).
Definition miss : bool * option error := (false, None).
Definition bad : bool * option error := (false, Some ErrBadPattern).

Definition matchTests : list (string * string * (bool * option error)) :=
  [ ("abc", "abc", good);
    ("*", "abc", good);
    ("*c", "abc", good);
    ("a*", "a", good);
    ("a*", "abc", good);
    ("a*", "ab/c", miss);
    ("a*/b", "abc/b", good);
    ("a*/b", "a/c/b", miss);
    ("a*b*c*d*e*/f", "axbxcxdxe/f", good);
    ("a*b*c*d*e*/f", "axbxcxdxexxx/f", good);
    ("a*b*c*d*e*/f", "axbxcxdxe/xxx/f", miss);
    ("a*b*c*d*e*/f", "axbxcxdxexxx/fff", miss);
    ("a*b?c*x", "abxbbxdbxebxczzx", good);
    ("a*b?c*x", "abxbbxdbxebxczzy", miss);
    ("ab[c]", "abc", good);
    ("ab[b-d]", "abc", good);
    ("ab[e-g]", "abc", miss);
    ("ab[^c]", "abc", miss);
    ("ab[^b-d]", "abc", miss);
    ("ab[^e-g]", "abc", good);
    ("a\*b", "a*b", good);
    ("a\*b", "ab", miss);
    ("a?b", "a☺b", good);
    ("a[^a]b", "a☺b", good);
    ("a???b", "a☺b", miss);
    ("a[^a][^a][^a]b", "a☺b", miss);
    ("[a-ζ]*", "α", good);
    ("*[a-ζ]", "A", miss);
    ("a?b", "a/b", miss);
    ("a*b", "a/b", miss);
    ("[\]a]", "]", good);
    ("[\-]", "-", good);
    ("[x\-]", "x", good);
    ("[x\-]", "-", good);
    ("[x\-]", "z", miss);
    ("[\-x]", "x", good);
    ("[\-x]", "-", good);
    ("[\-x]", "a", miss);
    ("[]a]", "]", bad);
    ("[-]", "-", bad);
    ("[x-]", "x", bad);
    ("[x-]", "-", bad);
    ("[x-]", "z", bad);
    ("[-x]", "x", bad);
    ("[-x]", "-", bad);
    ("[-x]", "a", bad);
    ("\", "a", bad);
    ("[a-b-c]", "a", bad);
    ("[", "a", bad);
    ("[^", "a", bad);
    ("[^bc", "a", bad);
    ("a[", "a", bad);
    ("a[", "ab", bad);
    ("a[", "x", bad);
    ("a/b[", "x", bad);
    ("*x", "xxx", good) ].

Definition baseExamples : list (string * string) :=
  [ ("/foo/bar/baz.js", "baz.js");
    ("/foo/bar/baz", "baz");
    ("/foo/bar/baz/", "baz");
    ("dev.txt", "dev.txt");
    ("../todo.txt", "todo.txt");
    ("..", "..");
    (".", ".");
    ("/", "/");
    ("", ".") ].

End Conformance.

(** ** The data of the GitHub client (package [go-github])

    The fields of a release asset are pointers, [nil] when the API left
    them out; the getters give the zero value of the type then. *)

Record ReleaseAsset : Type := {
  ID : option Z;           (* *int64 *)
  Name : option string     (* *string *)
}.

Definition GetID (a : ReleaseAsset) : Z := default 0 (ID a).
Definition GetName (a : ReleaseAsset) : string := default "" (Name a).

Record RepositoryRelease : Type := {
  Assets : list ReleaseAsset
}.

(** A client is the unauthenticated one, [github.NewClient(nil)], or one
    whose requests carry the access token. *)
Record Client : Type := {
  AccessToken : option string
}.

Definition NewClient (token : option string) : Client :=
  {| AccessToken := token |}.

(** ** Contexts and durations (packages [context] and [time])

    Instants and durations count nanoseconds.  Of a context the model
    keeps its deadline. *)

Definition Nanosecond : Z := 1.
Definition Microsecond : Z := 1000 * Nanosecond.
Definition Millisecond : Z := 1000 * Microsecond.
Definition Second : Z := 1000 * Millisecond.
Definition Minute : Z := 60 * Second.

Record Context : Type := {
  Deadline : option Z
}.

Definition Background : Context := {| Deadline := None |}.

(** [context.WithTimeout(parent, d)] is [WithDeadline(parent, now + d)]: the
    child keeps the deadline of the parent when that one comes first. *)
Definition WithTimeout (now : Z) (parent : Context) (timeout : Z) : Context :=
  let d := now + timeout in
  match Deadline parent with
  | Some cur => if cur <? d then parent else {| Deadline := Some d |}
  | None => {| Deadline := Some d |}
  end.

(** ** Streams and HTTP responses *)

(** What a reader delivers: its bytes, and the error that ends the reading
    ([None] for a clean end of file). *)
Record Stream : Type := {
  data : list Byte.byte;
  read_err : option error
}.

Record Response : Type := {
  StatusCode : Z;
  Status : string;
  Body : Stream
}.

Definition StatusOK : Z := 200.

(** ** The arguments of a run (lines 40-48) and the command line *)

Record runArgs : Type := {
  Owner : string;
  Repo : string;
  Pattern : string;
  Timeout : Z;         (* time.Duration *)
  Token : string       (* filled in from environment *)
}.

(** The flags as the user gave them; [None] for a flag that is absent.
    [autoflags.Parse] registers each tagged field with its current value as
    the default of the flag. *)
Record CommandLine : Type := {
  flag_owner : option string;
  flag_repo : option string;
  flag_pattern : option string;
  flag_timeout : option Z
}.

Definition autoflags_Parse (args : runArgs) (cl : CommandLine) : runArgs :=
  {| Owner := default (Owner args) (flag_owner cl);
     Repo := default (Repo args) (flag_repo cl);
     Pattern := default (Pattern args) (flag_pattern cl);
     Timeout := default (Timeout args) (flag_timeout cl);
     Token := Token args |}.

(** ** The world around the program

    [Env] is what the outside answers: the GitHub API, the HTTP server
    behind a redirect, the clock, the process environment and the faults
    of the file system.  [World] is what a run changes: the files (path to
    content) and the log of the network requests it has sent. *)

Record Env : Type := {
  os_Getenv : string -> string;
  time_Now : Z;
  api_GetLatestRelease :
    Client -> Context -> string -> string -> Result RepositoryRelease;
  api_DownloadReleaseAsset :
    Client -> Context -> string -> string -> Z ->
    option Stream * string * option error;
  client_Do : Context -> string -> Result Response;
  url_fault : string -> option error;   (* http.NewRequest refuses the URL *)
  stat_fault : string -> option string; (* a stat fails, and not for a missing path *)
  temp_file : Result string;            (* the name ioutil.TempFile comes up with *)
  write_fault : option error;
  close_fault : option error;
  rename_fault : option error
}.

Inductive NetEvent : Type :=
| NetGetLatestRelease (c : Client) (ctx : Context) (owner repo : string)
| NetDownloadReleaseAsset (c : Client) (ctx : Context) (owner repo : string) (id : Z)
| NetHttpGet (ctx : Context) (url : string).

Record World : Type := {
  files : gmap string (list Byte.byte);
  net : list NetEvent
}.

Definition set_files (f : gmap string (list Byte.byte) -> gmap string (list Byte.byte))
           (w : World) : World :=
  {| files := f (files w); net := net w |}.

Definition log (ev : NetEvent) (w : World) : World :=
  {| files := files w; net := (net w ++ [ev])%list |}.

(** ** Computations: the world is threaded, an error ends the run *)

Definition M (A : Type) : Type := World -> Result A * World.

Definition ret {A} (a : A) : M A := fun w => (Ok a, w).

Definition fail {A} (e : error) : M A := fun w => (Err e, w).

Definition bind {A B} (m : M A) (k : A -> M B) : M B :=
  fun w =>
    match m w with
    | (Ok a, w') => k a w'
    | (Err e, w') => (Err e, w')
    end.

Declare Scope go_scope.
Delimit Scope go_scope with go.
Notation "x <- m ;; k" := (bind m (fun x => k))
  (at level 20, m at level 99, k at level 200) : go_scope.
Notation "' pat <- m ;; k" := (bind m (fun x => match x with pat => k end))
  (at level 20, pat pattern, m at level 99, k at level 200) : go_scope.
Notation "m ;; k" := (bind m (fun _ => k))
  (at level 100, k at level 200, right associativity) : go_scope.

(** [if err != nil { return err }] *)
Definition check (err : option error) : M unit :=
  match err with
  | Some e => fail e
  | None => ret tt
  end.

Definition lift {A} (r : Result A) : M A :=
  match r with
  | Ok a => ret a
  | Err e => fail e
  end.

(** [defer]: the cleanup runs when the body returns, with or without error *)
Definition defer {A} (cleanup : World -> World) (body : M A) : M A :=
  fun w => let '(r, w') := body w in (r, cleanup w').

Section Program.

(** [path.Match], see above. *)
Variable path_Match : string -> string -> bool * option error.
Variable E : Env.

Local Open Scope go_scope.

(** *** The calls that leave the process *)

Definition Repositories_GetLatestRelease (c : Client) (ctx : Context)
           (owner repo : string) : M RepositoryRelease :=
  fun w => (api_GetLatestRelease E c ctx owner repo,
            log (NetGetLatestRelease c ctx owner repo) w).

Definition Repositories_DownloadReleaseAsset (c : Client) (ctx : Context)
           (owner repo : string) (id : Z) : M (option Stream * string) :=
  fun w =>
    let w' := log (NetDownloadReleaseAsset c ctx owner repo id) w in
    match api_DownloadReleaseAsset E c ctx owner repo id with
    | (_, _, Some e) => (Err e, w')
    | (rc, u, None) => (Ok (rc, u), w')
    end.

(** [http.NewRequest(http.MethodGet, u, nil)] and [req.WithContext(ctx)];
    the request is its URL and its context. *)
Definition http_NewRequest (u : string) : M string :=
  match url_fault E u with
  | Some e => fail e
  | None => ret u
  end.

Definition http_DefaultClient_Do (ctx : Context) (req : string) : M Response :=
  fun w => (client_Do E ctx req, log (NetHttpGet ctx req) w).

(** *** The file system *)

(** [os.Stat]: [nil] for a path that is there. *)
Definition stat (w : World) (p : string) : option error :=
  match files w !! p with
  | Some _ => None
  | None =>
      match stat_fault E p with
      | Some msg => Some (ExternalError msg)
      | None => Some (ErrNotExist p)
      end
  end.

Definition os_Stat (p : string) : M (option error) :=
  fun w => (Ok (stat w p), w).

(** [ioutil.TempFile]: a new empty file; the value is its name. *)
Definition ioutil_TempFile : M string :=
  match temp_file E with
  | Err e => fail e
  | Ok tf => fun w => (Ok tf, set_files (insert tf []) w)
  end.

(** [io.Copy(tf, src)]: the bytes read are appended to the file. *)
Definition io_Copy (tf : string) (src : Stream) : M unit :=
  match write_fault E with
  | Some e => fail e
  | None =>
      fun w =>
        let old := default [] (files w !! tf) in
        (match read_err src with Some e => Err e | None => Ok tt end,
         set_files (insert tf (old ++ data src)%list) w)
  end.

Definition File_Close (tf : string) : M unit := check (close_fault E).

Definition os_Rename (oldpath newpath : string) : M unit :=
  match rename_fault E with
  | Some e => fail e
  | None =>
      fun w =>
        match files w !! oldpath with
        | Some c => (Ok tt, set_files (fun f => <[newpath := c]> (delete oldpath f)) w)
        | None => (Err (ErrNotExist oldpath), w)
        end
  end.

(** [os.Remove], its error dropped as the deferred call drops it. *)
Definition os_Remove (p : string) : World -> World := set_files (delete p).

(** *** [run], lines 50-139 *)

(** Lines 71-84: the loop over the assets.  [id] and [name] are the two
    variables declared before the loop; [name] is assigned at the top of
    every iteration, [id] only on a match. *)
Fixpoint selectAsset (pattern : string) (assets : list ReleaseAsset)
         (id : Z) (name : string) : Result (Z * string) :=
  match assets with
  | [] => Ok (id, name)
  | asset :: rest =>
      let name := GetName asset in
      let '(ok, err) := path_Match pattern name in
      match err with
      | Some e => Err e
      | None =>
          if ok then Ok (GetID asset, GetName asset)
          else selectAsset pattern rest id name
      end
  end.

(** Lines 54-58: the deadline of the run. *)
Definition runContext (ctx : Context) (args : runArgs) : Context :=
  if 0 <? Timeout args then WithTimeout (time_Now E) ctx (Timeout args) else ctx.

(** Lines 59-66: the client. *)
Definition runClient (args : runArgs) : Client :=
  if String.eqb (Token args) "" then NewClient None
  else NewClient (Some (Token args)).

(** Lines 109-134: the switch that fills the temporary file. *)
Definition fetch (ctx : Context) (rc : option Stream) (u : string) (tf : string)
  : M unit :=
  match rc with
  | Some rc => io_Copy tf rc
  | None =>
      if negb (String.eqb u "") then
        (req <- http_NewRequest u ;;
         r <- http_DefaultClient_Do ctx req ;;
         if negb (StatusCode r =? StatusOK)
         then fail (Errorf "invalid status: %s" [ArgString (Status r)])
         else io_Copy tf (Body r))
      else
        fail (Errorf "cannot download asset release, don't have sensible link for that" [])
  end.

(** Lines 99-138: the download into a temporary file and the renaming. *)
Definition download (client : Client) (ctx : Context) (args : runArgs)
           (id : Z) (dst : string) : M unit :=
  '(rc, u) <- Repositories_DownloadReleaseAsset client ctx (Owner args) (Repo args) id ;;
  tf <- ioutil_TempFile ;;
  defer (os_Remove tf)
    (fetch ctx rc u tf ;;
     File_Close tf ;;
     os_Rename tf dst).

Definition run (ctx : Context) (args : runArgs) : M unit :=
  if String.eqb (Owner args) "" || String.eqb (Repo args) ""
     || String.eqb (Pattern args) ""
  then fail (Errorf "one or more mandatory flags missing" [])
  else
    let ctx := runContext ctx args in
    let client := runClient args in
    release <- Repositories_GetLatestRelease client ctx (Owner args) (Repo args) ;;
    '(id, name) <- lift (selectAsset (Pattern args) (Assets release) 0 "") ;;
    if String.eqb name "" then fail (Errorf "empty asset name" [])
    else
      let dst := filepath.Base (filepath.FromSlash name) in
      err <- os_Stat dst ;;
      if negb (os_IsNotExist err)
      then fail (Errorf "file %q already exists" [ArgString dst])
      else if id =? 0 then
        let names := map GetName (Assets release) in
        fail (Errorf "no assets matching pattern %q found, assets are: %v"
                [ArgString (Pattern args); ArgStrings names])
      else download client ctx args id dst.

(** *** [main], lines 28-38

    The value is the exit status with what went to the standard error: the
    text of the error of [run]. *)
Definition mainArgs (cl : CommandLine) : runArgs :=
  autoflags_Parse
    {| Owner := ""; Repo := ""; Pattern := "";
       Timeout := Minute;
       Token := os_Getenv E "GITHUB_TOKEN" |}
    cl.

Definition main (cl : CommandLine) (w : World) : Z * option error * World :=
  match run Background (mainArgs cl) w with
  | (Err e, w') => (1, Some e, w')
  | (Ok _, w') => (0, None, w')
  end.

End Program.

(** ** Vocabulary of the statements *)

(** the context under which a request was sent *)
Definition event_ctx (ev : NetEvent) : Context :=
  match ev with
  | NetGetLatestRelease _ ctx _ _ => ctx
  | NetDownloadReleaseAsset _ ctx _ _ _ => ctx
  | NetHttpGet ctx _ => ctx
  end.

(** a request for the content of an asset, as opposed to the one for the
    description of the release *)
Definition asks_content (ev : NetEvent) : bool :=
  match ev with
  | NetGetLatestRelease _ _ _ _ => false
  | NetDownloadReleaseAsset _ _ _ _ _ => true
  | NetHttpGet _ _ => true
  end.

(** every request a computation sends is sent under the context [c] *)
Definition sends_under (c : Context) {A} (m : M A) : Prop :=
  forall w, exists evs,
    net (snd (m w)) = (net w ++ evs)%list /\ Forall (fun ev => event_ctx ev = c) evs.

(** the client a request to the API was sent with; a plain HTTP request has
    none *)
Definition event_client (ev : NetEvent) : option Client :=
  match ev with
  | NetGetLatestRelease c _ _ _ => Some c
  | NetDownloadReleaseAsset c _ _ _ _ => Some c
  | NetHttpGet _ _ => None
  end.

(** [bytes] is what the answer of the API to the request for content
    delivers in full: the stream when there is one, else the body of the
    answer with status 200 behind the URL *)
Definition delivered (E : Env) (ctx : Context)
           (answer : option Stream * string * option error)
           (bytes : list Byte.byte) : Prop :=
  match answer with
  | (Some rc, _, None) => read_err rc = None /\ bytes = data rc
  | (None, u, None) =>
      u <> "" /\
      exists r, client_Do E ctx u = Ok r /\ StatusCode r = StatusOK
                /\ read_err (Body r) = None /\ bytes = data (Body r)
  | (_, _, Some _) => False
  end.

(** a computation leaves the path [p] as it is: no file appears, goes or
    changes there *)
Definition keeps (p : string) {A} (m : M A) : Prop :=
  forall w, files (snd (m w)) !! p = files w !! p.

Fixpoint allSeparators (s : string) : bool :=
  match s with
  | EmptyString => true
  | String c s' => filepath.IsPathSeparator c && allSeparators s'
  end.

Fixpoint endsWithSeparator (s : string) : bool :=
  match s with
  | EmptyString => false
  | String c EmptyString => filepath.IsPathSeparator c
  | String _ s' => endsWithSeparator s'
  end.

(** a matcher that accepts some name with a pattern reports no error with
    that pattern on any name: its errors are errors of the pattern *)
Definition consistent (path_Match : string -> string -> bool * option error) : Prop :=
  forall pattern name name',
    path_Match pattern name = (true, None) -> snd (path_Match pattern name') = None.

(** the matcher refuses the pattern, whatever the name *)
Definition malformed (path_Match : string -> string -> bool * option error)
           (pattern : string) : Prop :=
  forall name, snd (path_Match pattern name) <> None.

(** the matcher finds the name of the asset matching, without complaint *)
Definition matching (path_Match : string -> string -> bool * option error)
           (pattern : string) (a : ReleaseAsset) : Prop :=
  path_Match pattern (GetName a) = (true, None).

(** the matcher finds the name of the asset not matching, without complaint *)
Definition rejected (path_Match : string -> string -> bool * option error)
           (pattern : string) (a : ReleaseAsset) : Prop :=
  path_Match pattern (GetName a) = (false, None).

(** the arguments pass the test of line 51 *)
Definition complete (args : runArgs) : Prop :=
  Owner args <> "" /\ Repo args <> "" /\ Pattern args <> "".

(** line 88: the name of the file the asset goes to *)
Definition destination (name : string) : string :=
  filepath.Base (filepath.FromSlash name).

(** the answer of the API to the request of line 67 *)
Definition latest (E : Env) (ctx : Context) (args : runArgs) : Result RepositoryRelease :=
  api_GetLatestRelease E (runClient args) (runContext E ctx args) (Owner args) (Repo args).

(** the answer of the API to the request of line 99 *)
Definition content (E : Env) (ctx : Context) (args : runArgs) (id : Z)
  : option Stream * string * option error :=
  api_DownloadReleaseAsset E (runClient args) (runContext E ctx args)
    (Owner args) (Repo args) id.

(** the requests of lines 67, 99 and 121, as they appear in the log *)
Definition releaseRequest (E : Env) (ctx : Context) (args : runArgs) : NetEvent :=
  NetGetLatestRelease (runClient args) (runContext E ctx args) (Owner args) (Repo args).

Definition contentRequest (E : Env) (ctx : Context) (args : runArgs) (id : Z) : NetEvent :=
  NetDownloadReleaseAsset (runClient args) (runContext E ctx args)
    (Owner args) (Repo args) id.

Definition redirectRequest (E : Env) (ctx : Context) (args : runArgs) (u : string) : NetEvent :=
  NetHttpGet (runContext E ctx args) u.

(** [os.Stat] finds nothing at the path *)
Definition absent (E : Env) (w : World) (p : string) : Prop :=
  files w !! p = None /\ stat_fault E p = None.

(** [p] names a direct entry of the current directory: one path element,
    which is neither the directory itself nor its parent *)
Definition entry (p : string) : Prop :=
  p <> "" /\ filepath.hasSeparator p = false /\ p <> "." /\ p <> "..".

(** a stat finds the root, the current directory and its parent, as it does
    on every Unix file system *)
Definition rooted (E : Env) (w : World) : Prop :=
  forall q, In q ["/"; "."; ".."] -> os_IsNotExist (stat E w q) = false.

(** ** Concrete worlds, to run the program on *)

Module Demo.

Definition asset (id : Z) (name : string) : ReleaseAsset :=
  {| ID := Some id; Name := Some name |}.

Definition payload : list Byte.byte := ["E"%byte; "L"%byte; "F"%byte].

Definition stream (bytes : list Byte.byte) : Stream :=
  {| data := bytes; read_err := None |}.

(** An API that serves one release with the given assets and answers every
    request for content with [answer]; a web server that answers [resp]; a
    machine without faults. *)
Definition env (assets : list ReleaseAsset)
           (answer : option Stream * string * option error)
           (resp : Result Response) : Env :=
  {| os_Getenv := fun _ => "";
     time_Now := 1000;
     api_GetLatestRelease := fun _ _ _ _ => Ok {| Assets := assets |};
     api_DownloadReleaseAsset := fun _ _ _ _ _ => answer;
     client_Do := fun _ _ => resp;
     url_fault := fun _ => None;
     stat_fault := fun _ => None;
     temp_file := Ok "/tmp/.github-release-asset-42";
     write_fault := None;
     close_fault := None;
     rename_fault := None |}.

Definition direct : option Stream * string * option error :=
  (Some (stream payload), "", None).

Definition redirect (u : string) : option Stream * string * option error :=
  (None, u, None).

Definition response (code : Z) (status : string) : Result Response :=
  Ok {| StatusCode := code; Status := status; Body := stream payload |}.

Definition unreachable : Result Response := Err (ExternalError "connection refused").

Definition args (pattern : string) : runArgs :=
  {| Owner := "acme"; Repo := "widget"; Pattern := pattern;
     Timeout := 0; Token := "" |}.

Definition anonymous : Client := {| AccessToken := None |}.

Definition cwd (names : list string) : World :=
  {| files := list_to_map (map (fun n => (n, ["o"%byte; "l"%byte; "d"%byte])) names);
     net := [] |}.

(** a command line with the three mandatory flags and no [-timeout] *)
Definition commandLine (pattern : string) : CommandLine :=
  {| flag_owner := Some "acme"; flag_repo := Some "widget";
     flag_pattern := Some pattern; flag_timeout := None |}.

(** the release of the example of the specification *)
Definition darwin : ReleaseAsset := asset 1 "widget_1.2_darwin_amd64.tar.gz".
Definition linux : ReleaseAsset := asset 2 "widget_1.2_linux_amd64.tar.gz".
Definition widgets : list ReleaseAsset := [darwin; linux].

(** a stream that breaks after [bytes] *)
Definition broken (bytes : list Byte.byte) : Stream :=
  {| data := bytes; read_err := Some (ExternalError "unexpected EOF") |}.

(** the machine [E] on which a stat of [p] is refused *)
Definition denying (p : string) (E : Env) : Env :=
  {| os_Getenv := os_Getenv E;
     time_Now := time_Now E;
     api_GetLatestRelease := api_GetLatestRelease E;
     api_DownloadReleaseAsset := api_DownloadReleaseAsset E;
     client_Do := client_Do E;
     url_fault := url_fault E;
     stat_fault := fun q => if String.eqb q p then Some "permission denied" else None;
     temp_file := temp_file E;
     write_fault := write_fault E;
     close_fault := close_fault E;
     rename_fault := rename_fault E |}.

(** the machine [E] with no room for a temporary file *)
Definition full (E : Env) : Env :=
  {| os_Getenv := os_Getenv E;
     time_Now := time_Now E;
     api_GetLatestRelease := api_GetLatestRelease E;
     api_DownloadReleaseAsset := api_DownloadReleaseAsset E;
     client_Do := client_Do E;
     url_fault := url_fault E;
     stat_fault := stat_fault E;
     temp_file := Err (ExternalError "no space left on device");
     write_fault := write_fault E;
     close_fault := close_fault E;
     rename_fault := rename_fault E |}.

End Demo.

(** * Facts *)

(** ** Paths *)

#[local] Arguments String.append !s1 s2 : simpl nomatch.

Section PathFacts.

Import filepath.

Lemma FromSlash_id (p : string) : FromSlash p = p.
Proof. reflexivity. Qed.

Lemma append_assoc (s t u : string) : (s +:+ t) +:+ u = s +:+ (t +:+ u).
Proof. induction s as [|c s IH]; simpl; [reflexivity | rewrite IH; reflexivity]. Qed.

Lemma stripTrailing_empty (p : string) :
  stripTrailing p = "" <-> allSeparators p = true.
Proof.
  induction p as [|c p IH]; simpl; [tauto|].
  destruct (stripTrailing p) as [|d t] eqn:Hs.
  - destruct (IsPathSeparator c); simpl.
    + split; intros _; [apply IH|]; reflexivity.
    + split; intros H; discriminate H.
  - split; intros H; [discriminate H|].
    apply andb_true_iff in H as [_ H]. apply IH in H. discriminate H.
Qed.

(** what [stripTrailing] drops is a run of separators *)
Lemma stripTrailing_split (p : string) :
  exists trail, p = stripTrailing p +:+ trail /\ allSeparators trail = true.
Proof.
  induction p as [|c p [trail [Hp Ht]]]; simpl.
  - exists "". split; reflexivity.
  - destruct (stripTrailing p) as [|d t] eqn:Hs.
    + destruct (IsPathSeparator c) eqn:Hc.
      * exists (String c p). split; [reflexivity|]. simpl. rewrite Hc. simpl.
        apply stripTrailing_empty, Hs.
      * exists trail. simpl in *. split; [congruence | exact Ht].
    + exists trail. simpl in *. split; [congruence | exact Ht].
Qed.

Lemma stripTrailing_end (p : string) : endsWithSeparator (stripTrailing p) = false.
Proof.
  induction p as [|c p IH]; simpl; [reflexivity|].
  destruct (stripTrailing p) as [|d t] eqn:Hs.
  - destruct (IsPathSeparator c) eqn:Hc; simpl; [reflexivity | exact Hc].
  - exact IH.
Qed.

Lemma lastElement_flat (p : string) : hasSeparator (lastElement p) = false.
Proof.
  induction p as [|c p IH]; simpl; [reflexivity|].
  destruct (hasSeparator p) eqn:Hp; [exact IH|].
  destruct (IsPathSeparator c) eqn:Hc; [exact Hp|].
  simpl. rewrite Hc, Hp. reflexivity.
Qed.

(** what comes before the last element is empty or closed by a separator *)
Lemma lastElement_split (p : string) :
  exists pre, p = pre +:+ lastElement p /\ (pre = "" \/ endsWithSeparator pre = true).
Proof.
  induction p as [|c p [pre [Hp Hpre]]]; simpl.
  - exists "". split; [reflexivity | left; reflexivity].
  - destruct (hasSeparator p) eqn:Hs.
    + exists (String c pre). simpl. split; [congruence|]. right.
      destruct Hpre as [-> | He].
      * simpl in Hp. rewrite Hp, lastElement_flat in Hs. discriminate Hs.
      * destruct pre; [discriminate He | exact He].
    + destruct (IsPathSeparator c) eqn:Hc.
      * exists (String c ""). simpl. split; [reflexivity | right; exact Hc].
      * exists "". split; [reflexivity | left; reflexivity].
Qed.

Lemma lastElement_nonempty (p : string) :
  p <> "" -> endsWithSeparator p = false -> lastElement p <> "".
Proof.
  induction p as [|c p IH]; [congruence|]. intros _ He. simpl.
  destruct (hasSeparator p) eqn:Hs.
  - apply IH.
    + intros ->. discriminate Hs.
    + destruct p; [discriminate Hs | exact He].
  - destruct (IsPathSeparator c) eqn:Hc; [|discriminate].
    destruct p; [simpl in He; congruence | discriminate].
Qed.

(** [Base] of a name that is not made of separators only *)
Lemma Base_proper (name : string) :
  allSeparators name = false ->
  Base name = lastElement (stripTrailing name) /\ Base name <> "".
Proof.
  intros Hn.
  assert (Hs : stripTrailing name <> "").
  { intros H. apply stripTrailing_empty in H. congruence. }
  pose proof (lastElement_nonempty _ Hs (stripTrailing_end name)) as Hl.
  destruct name as [|c name]; [discriminate Hn|].
  change (Base (String c name))
    with (match lastElement (stripTrailing (String c name)) with
          | EmptyString => String Separator EmptyString
          | _ => lastElement (stripTrailing (String c name))
          end).
  destruct (lastElement (stripTrailing (String c name))); [congruence|].
  split; [reflexivity | discriminate].
Qed.

(** [Base] of a name made of separators only *)
Lemma Base_separators (name : string) :
  name <> "" -> allSeparators name = true -> Base name = "/".
Proof.
  intros Hne Hn. apply stripTrailing_empty in Hn.
  destruct name as [|c name]; [congruence|].
  change (Base (String c name))
    with (match lastElement (stripTrailing (String c name)) with
          | EmptyString => String Separator EmptyString
          | _ => lastElement (stripTrailing (String c name))
          end).
  rewrite Hn. reflexivity.
Qed.

End PathFacts.

(** ** The models of the libraries on the libraries' examples *)

Example Match_matchTests :
  Forall (fun t => path.Match (fst (fst t)) (snd (fst t)) = snd t) Conformance.matchTests.
Proof.
  unfold Conformance.matchTests.
  repeat (constructor; [vm_compute; reflexivity|]). constructor.
Qed.

Example Base_baseExamples :
  Forall (fun t => filepath.Base (fst t) = snd t) Conformance.baseExamples.
Proof.
  unfold Conformance.baseExamples.
  repeat (constructor; [vm_compute; reflexivity|]). constructor.
Qed.

(** ** The pattern matcher

    The model of [path.Match] reports a malformed pattern whatever the name:
    the error of a chunk does not depend on the text it is matched against,
    and a match that succeeds has gone through every chunk of the pattern. *)

Section MatchFacts.
Import str path.

Lemma classRanges_indep fuel : forall chunk r r' m m' n,
  match classRanges fuel chunk r m n, classRanges fuel chunk r' m' n with
  | Ok (c, _), Ok (c', _) => c = c'
  | Err e, Err e' => e = e'
  | _, _ => False
  end.
Proof.
  induction fuel as [|fuel IH]; intros chunk r r' m m' n; cbn [classRanges]; [reflexivity|].
  destruct (negb (isEmpty chunk) && Ascii.eqb (head chunk) "]" && negb (Nat.eqb n 0));
    [exact eq_refl|].
  destruct (getEsc chunk) as [[lo chunk1] [e|]]; [exact eq_refl|].
  destruct (Ascii.eqb (head chunk1) "-"); [|apply IH].
  destruct (getEsc (drop 1 chunk1)) as [[hi chunk2] [e|]]; [exact eq_refl | apply IH].
Qed.

Lemma matchChunkLoop_err fuel : forall chunk s s' f f',
  snd (matchChunkLoop fuel chunk s f) = snd (matchChunkLoop fuel chunk s' f').
Proof.
  induction fuel as [|fuel IH]; intros chunk s s' f f'; [reflexivity|].
  cbn [matchChunkLoop]. destruct chunk as [|c chunk']; [destruct f, f'; reflexivity|].
  destruct (Ascii.eqb c "[").
  - set (chunk1 := if negb (isEmpty chunk') && Ascii.eqb (head chunk') "^"
                    then drop 1 chunk' else chunk').
    generalize (if f || isEmpty s then (0, s)
                else let '(r, n) := utf8.DecodeRuneInString s in (r, drop n s)).
    generalize (if f' || isEmpty s' then (0, s')
                else let '(r, n) := utf8.DecodeRuneInString s' in (r, drop n s')).
    intros [r' s1'] [r s1].
    pose proof (classRanges_indep fuel chunk1 r r' false false 0%nat) as H.
    destruct (classRanges fuel chunk1 r false 0) as [[c2 m2]|e],
             (classRanges fuel chunk1 r' false 0) as [[c2' m2']|e']; try contradiction.
    + subst c2'. apply IH.
    + subst e'. reflexivity.
  - destruct (Ascii.eqb c "?").
    + destruct (f || isEmpty s), (f' || isEmpty s');
        repeat match goal with
               | |- context [utf8.DecodeRuneInString ?x] =>
                   destruct (utf8.DecodeRuneInString x)
               end; apply IH.
    + set (chunk0 := if Ascii.eqb c "\" then chunk' else String c chunk').
      destruct (isEmpty chunk0); [reflexivity|].
      destruct (f || isEmpty s), (f' || isEmpty s'); apply IH.
Qed.

Lemma matchChunkLoop_ok fuel : forall chunk s f t err,
  matchChunkLoop fuel chunk s f = (t, true, err) -> err = None.
Proof.
  induction fuel as [|fuel IH]; intros chunk s f t err; cbn [matchChunkLoop]; [discriminate|].
  destruct chunk as [|c chunk'].
  - destruct f; intros H; [discriminate H | injection H as _ <-; reflexivity].
  - destruct (Ascii.eqb c "[").
    + generalize (if f || isEmpty s then (0, s)
                  else let '(r, n) := utf8.DecodeRuneInString s in (r, drop n s)).
      intros [r s1].
      destruct (classRanges fuel _ r false 0) as [[c2 m2]|e]; [apply IH | discriminate].
    + destruct (Ascii.eqb c "?").
      * destruct (f || isEmpty s); [apply IH|].
        destruct (utf8.DecodeRuneInString s). apply IH.
      * destruct (isEmpty _); [discriminate|].
        destruct (f || isEmpty s); apply IH.
Qed.


Lemma matchChunk_err chunk s :
  snd (matchChunk chunk s) = snd (matchChunk chunk "").
Proof. apply matchChunkLoop_err. Qed.

Lemma matchChunk_ok chunk s t err :
  matchChunk chunk s = (t, true, err) -> err = None.
Proof. apply matchChunkLoop_ok. Qed.

Lemma dropStars_shape p :
  (String.length (snd (dropStars p)) <= String.length p)%nat
  /\ (fst (dropStars p) = true ->
      (String.length (snd (dropStars p)) < String.length p)%nat)
  /\ (fst (dropStars p) = false -> snd (dropStars p) = p)
  /\ Ascii.eqb (head (snd (dropStars p))) "*" = false.
Proof.
  induction p as [|c p (Hle & Hlt & Hid & Hhd)]; simpl.
  - repeat split; try discriminate; lia.
  - destruct (Ascii.eqb c "*") eqn:Hc; simpl.
    + repeat split; try discriminate; try lia. exact Hhd.
    + repeat split; try discriminate; try lia. exact Hc.
Qed.

Lemma scanBody_len p : forall b,
  (String.length (snd (scanBody b p)) <= String.length p)%nat.
Proof.
  assert (H : forall n p b, (String.length p <= n)%nat ->
                (String.length (snd (scanBody b p)) <= String.length p)%nat).
  { clear p. induction n as [|n IH]; intros p b Hn.
    - destruct p; [simpl; lia | simpl in Hn; lia].
    - destruct p as [|c p]; [simpl; lia|]. simpl in Hn. cbn [scanBody].
      destruct (Ascii.eqb c "\").
      { destruct p as [|c' p]; [simpl; lia|]. simpl in Hn |- *.
        specialize (IH p b). lia. }
      destruct (Ascii.eqb c "["); [simpl; specialize (IH p true); lia|].
      destruct (Ascii.eqb c "]"); [simpl; specialize (IH p false); lia|].
      destruct (Ascii.eqb c "*").
      { destruct b; [simpl; specialize (IH p true); lia | simpl; lia]. }
      simpl. specialize (IH p b). lia. }
  intros b. apply (H (String.length p)). lia.
Qed.

Lemma scanBody_first c p :
  Ascii.eqb c "*" = false ->
  (String.length (snd (scanBody false (String c p))) < String.length (String c p))%nat
  /\ fst (scanBody false (String c p)) <> "".
Proof.
  intros Hc. cbn [scanBody].
  destruct (Ascii.eqb c "\").
  { destruct p as [|c' p]; simpl; [split; [lia | discriminate]|].
    pose proof (scanBody_len p false). split; [lia | discriminate]. }
  destruct (Ascii.eqb c "[");
    [simpl; pose proof (scanBody_len p true); split; [lia | discriminate]|].
  destruct (Ascii.eqb c "]");
    [simpl; pose proof (scanBody_len p false); split; [lia | discriminate]|].
  rewrite Hc. simpl. pose proof (scanBody_len p false). split; [lia | discriminate].
Qed.

Lemma scanChunk_shape p star chunk rest :
  p <> "" ->
  scanChunk p = (star, chunk, rest) ->
  (String.length rest < String.length p)%nat /\ (chunk = "" -> rest = "").
Proof.
  intros Hp. unfold scanChunk.
  destruct (dropStars_shape p) as (Hle & Hlt & Hid & Hhd).
  destruct (dropStars p) as [st p'] eqn:Hd. simpl in *.
  destruct (scanBody false p') as [ch rs] eqn:Hb.
  intros H. injection H as <- <- <-.
  destruct p' as [|c p'].
  - simpl in Hb. injection Hb as <- <-.
    split; [|reflexivity]. destruct p; [congruence | simpl; lia].
  - simpl in Hhd. destruct (scanBody_first c p' Hhd) as [Hl Hne].
    rewrite Hb in Hl, Hne. simpl in Hl, Hne.
    split; [|intros ->; congruence].
    destruct st; [specialize (Hlt eq_refl); simpl in *; lia|].
    rewrite <- (Hid eq_refl). simpl. lia.
Qed.

Lemma checkRest_fuel : forall f1 f2 p,
  (String.length p <= f1)%nat -> (String.length p <= f2)%nat ->
  checkRest f1 p = checkRest f2 p.
Proof.
  induction f1 as [|f1 IH]; intros f2 p H1 H2.
  - destruct p; [|simpl in H1; lia]. destruct f2; reflexivity.
  - destruct f2 as [|f2].
    + destruct p; [reflexivity | simpl in H2; lia].
    + cbn [checkRest]. destruct (isEmpty p) eqn:Hp; [reflexivity|].
      destruct (scanChunk p) as [[star chunk] rest] eqn:Hs.
      assert (Hne : p <> "") by (intros ->; discriminate Hp).
      destruct (scanChunk_shape p star chunk rest Hne Hs) as [Hlen _].
      destruct (snd (matchChunk chunk "")); [reflexivity|].
      apply IH; lia.
Qed.

Lemma skipLoop_sound chunk last name e :
  snd (matchChunk chunk "") = None -> skipLoop chunk last name <> Failed e.
Proof.
  intros Hc. induction name as [|c name IH]; simpl; [discriminate|].
  destruct (Ascii.eqb c "/"); [discriminate|].
  pose proof (matchChunk_err chunk name) as He. rewrite Hc in He.
  destruct (matchChunk chunk name) as [[t ok] err]. simpl in He. subst err.
  destruct ok; [|exact IH].
  destruct (last && negb (isEmpty t)); [exact IH | discriminate].
Qed.

(** a match that ends without error has seen a well-formed pattern *)
Lemma MatchLoop_quiet_checked : forall fuel p n b,
  (String.length p <= fuel)%nat ->
  MatchLoop fuel p n = (b, None) -> checkRest fuel p = None.
Proof.
  induction fuel as [|fuel IH]; intros p n b Hlen; [reflexivity|].
  cbn [MatchLoop checkRest]. destruct (isEmpty p) eqn:Hp; [reflexivity|].
  assert (Hne : p <> "") by (intros ->; discriminate Hp).
  destruct (scanChunk p) as [[star chunk] rest] eqn:Hs.
  destruct (scanChunk_shape p star chunk rest Hne Hs) as [Hshort Hrest].
  destruct (star && isEmpty chunk) eqn:Hse.
  - intros _. apply andb_true_iff in Hse as [_ Hch].
    destruct chunk; [|discriminate Hch]. rewrite (Hrest eq_refl).
    simpl. destruct fuel; reflexivity.
  - pose proof (matchChunk_err chunk n) as He.
    destruct (matchChunk chunk n) as [[t ok] err] eqn:Hm. simpl in He.
    assert (Hgive : forall r : bool * option error,
               match checkRest (String.length rest) rest with
               | Some e => (false, Some e)
               | None => r
               end = (b, None) -> checkRest fuel rest = None).
    { intros r. rewrite (checkRest_fuel fuel (String.length rest) rest) by lia.
      destruct (checkRest _ rest); [discriminate | reflexivity]. }
    destruct (ok && (isEmpty t || negb (isEmpty rest))) eqn:Hok.
    + apply andb_true_iff in Hok as [-> _].
      rewrite <- He, (matchChunk_ok _ _ _ _ Hm). apply IH. lia.
    + destruct err as [e|]; [discriminate|]. rewrite <- He.
      destruct star; [|apply Hgive].
      destruct (skipLoop chunk (isEmpty rest) n);
        [apply IH; lia | discriminate | apply Hgive].
Qed.

(** on a well-formed pattern no name makes the matcher complain *)
Lemma MatchLoop_checked_quiet : forall fuel p n,
  (String.length p <= fuel)%nat ->
  checkRest fuel p = None -> snd (MatchLoop fuel p n) = None.
Proof.
  induction fuel as [|fuel IH]; intros p n Hlen; [reflexivity|].
  cbn [MatchLoop checkRest]. destruct (isEmpty p) eqn:Hp; [reflexivity|].
  assert (Hne : p <> "") by (intros ->; discriminate Hp).
  destruct (scanChunk p) as [[star chunk] rest] eqn:Hs.
  destruct (scanChunk_shape p star chunk rest Hne Hs) as [Hshort _].
  destruct (snd (matchChunk chunk "")) as [e|] eqn:Hc; [discriminate|].
  intros Hrest.
  destruct (star && isEmpty chunk); [reflexivity|].
  pose proof (matchChunk_err chunk n) as He. rewrite Hc in He.
  destruct (matchChunk chunk n) as [[t ok] err]. simpl in He. subst err.
  assert (Hgive : checkRest (String.length rest) rest = None)
    by (rewrite <- Hrest; apply checkRest_fuel; lia).
  destruct (ok && (isEmpty t || negb (isEmpty rest))); [apply IH; [lia | exact Hrest]|].
  rewrite Hgive. destruct star; [|reflexivity].
  pose proof (skipLoop_sound chunk (isEmpty rest) n) as Hskip.
  destruct (skipLoop chunk (isEmpty rest) n) as [t'|e|];
    [apply IH; [lia | exact Hrest] | exfalso; apply (Hskip e Hc); reflexivity | reflexivity].
Qed.

(** whether the matcher reports an error depends on the pattern alone *)
Lemma Match_quiet pattern name name' :
  snd (Match pattern name) = None -> snd (Match pattern name') = None.
Proof.
  unfold Match. intros H.
  destruct (MatchLoop (String.length pattern) pattern name) as [b err] eqn:Hm.
  simpl in H. subst err.
  apply MatchLoop_checked_quiet; [lia|].
  apply (MatchLoop_quiet_checked _ _ _ _ (Nat.le_refl _) Hm).
Qed.

End MatchFacts.

Lemma Match_consistent : consistent path.Match.
Proof.
  intros pattern name name' H. apply (Match_quiet pattern name). rewrite H. reflexivity.
Qed.

(** a pattern the library refuses once is refused with every name *)
Lemma Match_malformed pattern name :
  snd (path.Match pattern name) <> None -> malformed path.Match pattern.
Proof.
  intros H name' Hq. apply H. apply (Match_quiet pattern name'). exact Hq.
Qed.

(** every name makes the library report the unterminated class of "a[b" *)
Lemma Match_unterminated_class (name : string) :
  path.Match "a[b" name = (false, Some ErrBadPattern).
Proof.
  destruct name as [|c name]; [reflexivity|].
  unfold path.Match. simpl. unfold path.matchChunk. simpl.
  match goal with
  | |- context [if ?b then (0, name) else _] => destruct b
  end; [reflexivity|].
  destruct (utf8.DecodeRuneInString name); reflexivity.
Qed.

(** ** The loop over the assets *)

Section SelectFacts.

Variable path_Match : string -> string -> bool * option error.

#[local] Abbreviation selectAsset := (selectAsset path_Match).
#[local] Abbreviation matching := (matching path_Match).
#[local] Abbreviation rejected := (rejected path_Match).

(** the name the loop leaves in [name] when it runs to the end: the one of
    the last asset, the initial value for an empty list *)
Lemma selectAsset_none pattern assets id name :
  Forall (rejected pattern) assets ->
  selectAsset pattern assets id name
  = Ok (id, default name (last (map GetName assets))).
Proof.
  intros H. revert name. induction H as [|a l Ha _ IH]; intros name.
  - reflexivity.
  - simpl. unfold rejected in Ha. rewrite Ha, IH, last_cons.
    destruct (last (map GetName l)); reflexivity.
Qed.

Lemma selectAsset_first pattern pre a post id name :
  Forall (rejected pattern) pre ->
  matching pattern a ->
  selectAsset pattern (pre ++ a :: post)%list id name = Ok (GetID a, GetName a).
Proof.
  intros H Ha. revert name. induction H as [|b l Hb _ IH]; intros name; simpl.
  - unfold matching in Ha. rewrite Ha. reflexivity.
  - unfold rejected in Hb. rewrite Hb. apply IH.
Qed.

Lemma selectAsset_error pattern pre a post ok e id name :
  Forall (rejected pattern) pre ->
  path_Match pattern (GetName a) = (ok, Some e) ->
  selectAsset pattern (pre ++ a :: post)%list id name = Err e.
Proof.
  intros H Ha. revert name. induction H as [|b l Hb _ IH]; intros name; simpl.
  - rewrite Ha. reflexivity.
  - unfold rejected in Hb. rewrite Hb. apply IH.
Qed.

(** when the matcher never complains, a list with a matching asset splits
    at the first one *)
Lemma first_match_split pattern assets :
  (forall b, b ∈ assets -> snd (path_Match pattern (GetName b)) = None) ->
  (exists a, a ∈ assets /\ matching pattern a) ->
  exists pre a post,
    assets = (pre ++ a :: post)%list /\ Forall (rejected pattern) pre /\ matching pattern a.
Proof.
  induction assets as [|b l IH]; intros Hok [a [Hin Ha]].
  - inversion Hin.
  - destruct (path_Match pattern (GetName b)) as [ok err] eqn:Hb.
    assert (Herr : err = None).
    { specialize (Hok b). rewrite Hb in Hok. apply Hok. left. }
    subst err. destruct ok.
    + exists [], b, l. split; [reflexivity|]. split; [constructor | exact Hb].
    + destruct IH as (pre & a' & post & -> & Hpre & Ha').
      * intros c Hc. apply Hok. right. exact Hc.
      * apply elem_of_cons in Hin as [-> | Hin].
        -- unfold matching in Ha. congruence.
        -- exists a. split; assumption.
      * exists (b :: pre), a', post. split; [reflexivity|].
        split; [constructor; assumption | exact Ha'].
Qed.

End SelectFacts.

(** ** The stages of [run]

    One lemma for each way through [run] up to the download: what the run
    returns and the world it leaves. *)

Section RunFacts.

Variable path_Match : string -> string -> bool * option error.
Variable E : Env.

#[local] Abbreviation exec := (run path_Match E).
#[local] Abbreviation select := (selectAsset path_Match).

Lemma complete_eqb args :
  complete args ->
  String.eqb (Owner args) "" || String.eqb (Repo args) ""
    || String.eqb (Pattern args) "" = false.
Proof.
  intros (Ho & Hr & Hp).
  apply String.eqb_neq in Ho, Hr, Hp. rewrite Ho, Hr, Hp. reflexivity.
Qed.

Lemma run_incomplete ctx args w :
  Owner args = "" \/ Repo args = "" \/ Pattern args = "" ->
  exec ctx args w = (Err (Errorf "one or more mandatory flags missing" []), w).
Proof.
  intros H. unfold run.
  destruct H as [-> | [-> | ->]]; simpl; rewrite ?orb_true_r; reflexivity.
Qed.

(** [run] on complete arguments, the sequence of its tests spelled out *)
Lemma run_complete ctx args w :
  complete args ->
  exec ctx args w =
  let w1 := log (releaseRequest E ctx args) w in
  match latest E ctx args with
  | Err e => (Err e, w1)
  | Ok release =>
      match select (Pattern args) (Assets release) 0 "" with
      | Err e => (Err e, w1)
      | Ok (id, name) =>
          if String.eqb name "" then (Err (Errorf "empty asset name" []), w1)
          else if negb (os_IsNotExist (stat E w (destination name))) then
            (Err (Errorf "file %q already exists" [ArgString (destination name)]), w1)
          else if id =? 0 then
            (Err (Errorf "no assets matching pattern %q found, assets are: %v"
                    [ArgString (Pattern args);
                     ArgStrings (map GetName (Assets release))]), w1)
          else
            download E (runClient args) (runContext E ctx args) args id
              (destination name) w1
      end
  end.
Proof.
  intros Hc. unfold run. rewrite (complete_eqb _ Hc).
  unfold latest, releaseRequest, destination, bind, Repositories_GetLatestRelease.
  cbv zeta.
  destruct (api_GetLatestRelease E _ _ _ _) as [release|e]; [|reflexivity].
  destruct (selectAsset _ _ _ _ _) as [[id name]|e]; simpl; [|reflexivity].
  destruct (String.eqb name ""); [reflexivity|].
  unfold os_Stat.
  change (stat E (log _ w)) with (stat E w).
  destruct (negb (os_IsNotExist _)); [reflexivity|].
  destruct (id =? 0); reflexivity.
Qed.

Lemma stat_present w p c : files w !! p = Some c -> stat E w p = None.
Proof. intros H. unfold stat. rewrite H. reflexivity. Qed.

Lemma stat_fault_err w p msg :
  files w !! p = None -> stat_fault E p = Some msg ->
  stat E w p = Some (ExternalError msg).
Proof. intros H1 H2. unfold stat. rewrite H1, H2. reflexivity. Qed.

Lemma stat_absent w p : absent E w p -> stat E w p = Some (ErrNotExist p).
Proof. intros [H1 H2]. unfold stat. rewrite H1, H2. reflexivity. Qed.

Lemma run_release_error ctx args w e :
  complete args ->
  latest E ctx args = Err e ->
  exec ctx args w = (Err e, log (releaseRequest E ctx args) w).
Proof. intros Hc Hl. rewrite (run_complete _ _ _ Hc), Hl. reflexivity. Qed.

Lemma run_select_error ctx args w release e :
  complete args ->
  latest E ctx args = Ok release ->
  select (Pattern args) (Assets release) 0 "" = Err e ->
  exec ctx args w = (Err e, log (releaseRequest E ctx args) w).
Proof.
  intros Hc Hl Hs. rewrite (run_complete _ _ _ Hc), Hl. simpl.
  rewrite Hs. reflexivity.
Qed.

Lemma run_empty_name ctx args w release id :
  complete args ->
  latest E ctx args = Ok release ->
  select (Pattern args) (Assets release) 0 "" = Ok (id, "") ->
  exec ctx args w
  = (Err (Errorf "empty asset name" []), log (releaseRequest E ctx args) w).
Proof.
  intros Hc Hl Hs. rewrite (run_complete _ _ _ Hc), Hl. simpl.
  rewrite Hs. reflexivity.
Qed.

(** the destination is there, or the stat fails otherwise than by a missing
    path: the run stops *)
Lemma run_exists ctx args w release id name :
  complete args ->
  latest E ctx args = Ok release ->
  select (Pattern args) (Assets release) 0 "" = Ok (id, name) ->
  name <> "" ->
  os_IsNotExist (stat E w (destination name)) = false ->
  exec ctx args w
  = (Err (Errorf "file %q already exists" [ArgString (destination name)]),
     log (releaseRequest E ctx args) w).
Proof.
  intros Hc Hl Hs Hn Hd. rewrite (run_complete _ _ _ Hc), Hl. simpl.
  rewrite Hs. apply String.eqb_neq in Hn. rewrite Hn, Hd. reflexivity.
Qed.

Lemma run_id_zero ctx args w release name :
  complete args ->
  latest E ctx args = Ok release ->
  select (Pattern args) (Assets release) 0 "" = Ok (0, name) ->
  name <> "" ->
  absent E w (destination name) ->
  exec ctx args w
  = (Err (Errorf "no assets matching pattern %q found, assets are: %v"
            [ArgString (Pattern args); ArgStrings (map GetName (Assets release))]),
     log (releaseRequest E ctx args) w).
Proof.
  intros Hc Hl Hs Hn Hd. rewrite (run_complete _ _ _ Hc), Hl. simpl.
  rewrite Hs. apply String.eqb_neq in Hn. rewrite Hn, (stat_absent _ _ Hd).
  reflexivity.
Qed.

Lemma run_download ctx args w release id name :
  complete args ->
  latest E ctx args = Ok release ->
  select (Pattern args) (Assets release) 0 "" = Ok (id, name) ->
  name <> "" ->
  absent E w (destination name) ->
  id <> 0 ->
  exec ctx args w
  = download E (runClient args) (runContext E ctx args) args id (destination name)
      (log (releaseRequest E ctx args) w).
Proof.
  intros Hc Hl Hs Hn Hd Hi. rewrite (run_complete _ _ _ Hc), Hl. simpl.
  rewrite Hs. apply String.eqb_neq in Hn. apply Z.eqb_neq in Hi.
  rewrite Hn, (stat_absent _ _ Hd), Hi. reflexivity.
Qed.

(** *** The download *)

Lemma io_Copy_written tf src w :
  write_fault E = None ->
  io_Copy E tf src w
  = (match read_err src with Some e => Err e | None => Ok tt end,
     set_files (insert tf (default [] (files w !! tf) ++ data src)%list) w).
Proof. intros H. unfold io_Copy. rewrite H. reflexivity. Qed.

Lemma fetch_no_link ctx tf w :
  fetch E ctx None "" tf w
  = (Err (Errorf "cannot download asset release, don't have sensible link for that" []), w).
Proof. reflexivity. Qed.

Lemma fetch_redirect ctx u tf w r :
  u <> "" ->
  url_fault E u = None ->
  client_Do E ctx u = Ok r ->
  fetch E ctx None u tf w
  = if negb (StatusCode r =? StatusOK)
    then (Err (Errorf "invalid status: %s" [ArgString (Status r)]),
          log (NetHttpGet ctx u) w)
    else io_Copy E tf (Body r) (log (NetHttpGet ctx u) w).
Proof.
  intros Hu Hf Hr. apply String.eqb_neq in Hu.
  unfold fetch, bind, http_NewRequest, http_DefaultClient_Do.
  rewrite Hu, Hf. simpl. rewrite Hr.
  destruct (negb (StatusCode r =? StatusOK)); reflexivity.
Qed.

(** [download], its steps spelled out: the request, the temporary file,
    the three steps under the deferred removal *)
Lemma download_steps client ctx args id dst w :
  download E client ctx args id dst w =
  let w2 := log (NetDownloadReleaseAsset client ctx (Owner args) (Repo args) id) w in
  match api_DownloadReleaseAsset E client ctx (Owner args) (Repo args) id with
  | (_, _, Some e) => (Err e, w2)
  | (rc, u, None) =>
      match temp_file E with
      | Err e => (Err e, w2)
      | Ok tf =>
          let w3 := set_files (insert tf []) w2 in
          match fetch E ctx rc u tf w3 with
          | (Err e, w4) => (Err e, os_Remove tf w4)
          | (Ok _, w4) =>
              match File_Close E tf w4 with
              | (Err e, w5) => (Err e, os_Remove tf w5)
              | (Ok _, w5) =>
                  let '(r, w6) := os_Rename E tf dst w5 in (r, os_Remove tf w6)
              end
          end
      end
  end.
Proof.
  unfold download, bind, Repositories_DownloadReleaseAsset, ioutil_TempFile, defer.
  cbv zeta.
  destruct (api_DownloadReleaseAsset E _ _ _ _ _) as [[rc u] [e|]]; [reflexivity|].
  destruct (temp_file E) as [tf|e]; [|reflexivity].
  destruct (fetch E ctx rc u tf _) as [[[]|e] w4]; [|reflexivity].
  destruct (File_Close E tf w4) as [[[]|e] w5]; reflexivity.
Qed.

End RunFacts.

(** ** The context of the requests

    Every request a run sends goes out under the context of lines 54-58. *)

Section ContextFacts.

Variable path_Match : string -> string -> bool * option error.
Variable E : Env.
Variable c : Context.

Lemma sends_silent {A} (m : M A) :
  (forall w, net (snd (m w)) = net w) -> sends_under c m.
Proof.
  intros H w. exists []. rewrite H, app_nil_r. split; [reflexivity | constructor].
Qed.

Lemma sends_one {A} (m : M A) ev :
  event_ctx ev = c ->
  (forall w, net (snd (m w)) = (net w ++ [ev])%list) -> sends_under c m.
Proof.
  intros Hev H w. exists [ev]. split; [apply H | repeat constructor; exact Hev].
Qed.

Lemma sends_bind {A B} (m : M A) (k : A -> M B) :
  sends_under c m -> (forall a, sends_under c (k a)) -> sends_under c (bind m k).
Proof.
  intros Hm Hk w. unfold bind.
  destruct (Hm w) as (evs & Hnet & Hevs).
  destruct (m w) as [[a|e] w1]; simpl in Hnet.
  - destruct (Hk a w1) as (evs' & Hnet' & Hevs').
    exists (evs ++ evs')%list. rewrite Hnet', Hnet, app_assoc.
    split; [reflexivity | apply Forall_app; split; assumption].
  - exists evs. split; assumption.
Qed.

Lemma sends_defer {A} (cleanup : World -> World) (m : M A) :
  (forall w, net (cleanup w) = net w) ->
  sends_under c m -> sends_under c (defer cleanup m).
Proof.
  intros Hc Hm w. unfold defer.
  destruct (Hm w) as (evs & Hnet & Hevs).
  destruct (m w) as [r w1]. exists evs. simpl in *. rewrite Hc. split; assumption.
Qed.

Lemma sends_fail {A} e : sends_under c (@fail A e).
Proof. apply sends_silent. reflexivity. Qed.

Lemma sends_ret {A} (a : A) : sends_under c (ret a).
Proof. apply sends_silent. reflexivity. Qed.

Lemma sends_lift {A} (r : Result A) : sends_under c (lift r).
Proof. destruct r; [apply sends_ret | apply sends_fail]. Qed.

Lemma sends_check err : sends_under c (check err).
Proof. destruct err; [apply sends_fail | apply sends_ret]. Qed.

Lemma sends_io_Copy tf src : sends_under c (io_Copy E tf src).
Proof.
  unfold io_Copy. destruct (write_fault E); [apply sends_fail|].
  apply sends_silent. reflexivity.
Qed.

Lemma sends_os_Rename a b : sends_under c (os_Rename E a b).
Proof.
  unfold os_Rename. destruct (rename_fault E); [apply sends_fail|].
  apply sends_silent. intros w. destruct (files w !! a); reflexivity.
Qed.

Lemma sends_fetch rc u tf : sends_under c (fetch E c rc u tf).
Proof.
  unfold fetch. destruct rc as [rc|]; [apply sends_io_Copy|].
  destruct (negb (String.eqb u "")); [|apply sends_fail].
  apply sends_bind.
  - unfold http_NewRequest. destruct (url_fault E u); [apply sends_fail | apply sends_ret].
  - intros req. apply sends_bind.
    + apply sends_one with (ev := NetHttpGet c req); reflexivity.
    + intros r. destruct (negb (StatusCode r =? StatusOK));
        [apply sends_fail | apply sends_io_Copy].
Qed.

Lemma sends_download client args id dst :
  sends_under c (download E client c args id dst).
Proof.
  unfold download. apply sends_bind.
  - apply sends_one
      with (ev := NetDownloadReleaseAsset client c (Owner args) (Repo args) id);
      [reflexivity|].
    intros w. unfold Repositories_DownloadReleaseAsset.
    destruct (api_DownloadReleaseAsset E _ _ _ _ _) as [[rc u] [e|]]; reflexivity.
  - intros [rc u]. apply sends_bind.
    + unfold ioutil_TempFile. destruct (temp_file E); [|apply sends_fail].
      apply sends_silent. reflexivity.
    + intros tf. apply sends_defer; [reflexivity|].
      apply sends_bind; [apply sends_fetch|]. intros _.
      apply sends_bind; [apply sends_check|]. intros _.
      apply sends_os_Rename.
Qed.

End ContextFacts.

Lemma run_sends_under path_Match E ctx args :
  sends_under (runContext E ctx args) (run path_Match E ctx args).
Proof.
  unfold run.
  destruct (_ || _); [apply sends_fail|].
  apply sends_bind.
  - apply sends_one with (ev := releaseRequest E ctx args); reflexivity.
  - intros release. apply sends_bind; [apply sends_lift|].
    intros [id name]. destruct (String.eqb name ""); [apply sends_fail|].
    apply sends_bind; [apply sends_silent; reflexivity|].
    intros err. destruct (negb (os_IsNotExist err)); [apply sends_fail|].
    destruct (id =? 0); [apply sends_fail | apply sends_download].
Qed.

(** ** What a run asks for and what it leaves alone *)

Section Requests.

Variable path_Match : string -> string -> bool * option error.
Variable E : Env.

(** the first request of a download is the one for the content of the asset *)
Lemma download_requests client ctx args id dst w :
  exists evs,
    net (snd (download E client ctx args id dst w))
    = (net w ++ NetDownloadReleaseAsset client ctx (Owner args) (Repo args) id :: evs)%list.
Proof.
  unfold download, bind at 1, Repositories_DownloadReleaseAsset.
  destruct (api_DownloadReleaseAsset E _ _ _ _ _) as [[rc u] [e|]].
  - exists []. reflexivity.
  - match goal with |- context [bind ?m ?k ?w'] =>
      assert (Hs : sends_under ctx (bind m k)) end.
    { apply sends_bind.
      - unfold ioutil_TempFile. destruct (temp_file E); [|apply sends_fail].
        apply sends_silent. reflexivity.
      - intros tf. apply sends_defer; [reflexivity|].
        apply sends_bind; [apply sends_fetch|]. intros _.
        apply sends_bind; [apply sends_check|]. intros _.
        apply sends_os_Rename. }
    match goal with |- context [bind ?m ?k ?w'] =>
      destruct (Hs w') as (evs & Hnet & _) end.
    exists evs. rewrite Hnet. simpl. rewrite <- app_assoc. reflexivity.
Qed.

(** a run in which no asset matches: the three ways it ends; [name] is what
    the loop has left in its variable *)
Lemma run_no_match ctx args w release :
  complete args ->
  latest E ctx args = Ok release ->
  Forall (rejected path_Match (Pattern args)) (Assets release) ->
  let name := default "" (last (map GetName (Assets release))) in
  run path_Match E ctx args w
  = (Err (if String.eqb name "" then Errorf "empty asset name" []
          else if negb (os_IsNotExist (stat E w (destination name)))
          then Errorf "file %q already exists" [ArgString (destination name)]
          else Errorf "no assets matching pattern %q found, assets are: %v"
                 [ArgString (Pattern args);
                  ArgStrings (map GetName (Assets release))]),
     log (releaseRequest E ctx args) w).
Proof.
  intros Hc Hl Hr name. rewrite (run_complete _ _ _ _ _ Hc), Hl. cbv zeta.
  rewrite (selectAsset_none _ _ _ 0 "" Hr). fold name.
  destruct (String.eqb name ""); [reflexivity|].
  destruct (negb (os_IsNotExist _)); reflexivity.
Qed.

(** on complete arguments the first thing a run sends is the request for the
    release *)
Lemma run_asks_release ctx args w :
  complete args ->
  exists evs,
    net (snd (run path_Match E ctx args w))
    = (net w ++ releaseRequest E ctx args :: evs)%list.
Proof.
  intros Hc. rewrite (run_complete _ _ _ _ _ Hc). cbv zeta.
  destruct (latest E ctx args) as [release|e]; [|exists []; reflexivity].
  destruct (selectAsset path_Match _ _ _ _) as [[id name]|e]; [|exists []; reflexivity].
  destruct (String.eqb name ""); [exists []; reflexivity|].
  destruct (negb (os_IsNotExist _)); [exists []; reflexivity|].
  destruct (id =? 0); [exists []; reflexivity|].
  destruct (download_requests (runClient args) (runContext E ctx args) args id
              (destination name) (log (releaseRequest E ctx args) w)) as (evs & Hnet).
  eexists. rewrite Hnet. simpl. rewrite <- app_assoc. reflexivity.
Qed.

End Requests.

(** ** The files a run touches

    A run writes its temporary file and the destination, nothing else. *)

Section FrameFacts.

Variable path_Match : string -> string -> bool * option error.
Variable E : Env.
Variable p : string.

Lemma keeps_bind {A B} (m : M A) (k : A -> M B) :
  keeps p m -> (forall a, keeps p (k a)) -> keeps p (bind m k).
Proof.
  intros Hm Hk w. unfold bind. specialize (Hm w).
  destruct (m w) as [[a|e] w1]; simpl in Hm.
  - rewrite (Hk a w1). exact Hm.
  - exact Hm.
Qed.

Lemma keeps_pure {A} (m : M A) :
  (forall w, files (snd (m w)) = files w) -> keeps p m.
Proof. intros H w. rewrite H. reflexivity. Qed.

Lemma keeps_fail {A} e : keeps p (@fail A e).
Proof. apply keeps_pure. reflexivity. Qed.

Lemma keeps_ret {A} (a : A) : keeps p (ret a).
Proof. apply keeps_pure. reflexivity. Qed.

Lemma keeps_defer {A} (cleanup : World -> World) (m : M A) :
  (forall w, files (cleanup w) !! p = files w !! p) ->
  keeps p m -> keeps p (defer cleanup m).
Proof.
  intros Hc Hm w. unfold defer. specialize (Hm w).
  destruct (m w) as [r w1]. simpl in *. rewrite Hc. exact Hm.
Qed.

Lemma keeps_io_Copy tf src : p <> tf -> keeps p (io_Copy E tf src).
Proof.
  intros Hp. unfold io_Copy. destruct (write_fault E); [apply keeps_fail|].
  intros w. simpl. apply lookup_insert_ne. congruence.
Qed.

Lemma keeps_os_Rename tf dst : p <> tf -> p <> dst -> keeps p (os_Rename E tf dst).
Proof.
  intros Hp Hd. unfold os_Rename. destruct (rename_fault E); [apply keeps_fail|].
  intros w. destruct (files w !! tf); [|reflexivity]. simpl.
  rewrite lookup_insert_ne, lookup_delete_ne; congruence.
Qed.

Lemma keeps_fetch ctx rc u tf : p <> tf -> keeps p (fetch E ctx rc u tf).
Proof.
  intros Hp. unfold fetch. destruct rc as [rc|]; [apply keeps_io_Copy, Hp|].
  destruct (negb (String.eqb u "")); [|apply keeps_fail].
  apply keeps_bind.
  - unfold http_NewRequest. destruct (url_fault E u); [apply keeps_fail | apply keeps_ret].
  - intros req. apply keeps_bind; [apply keeps_pure; reflexivity|].
    intros r. destruct (negb (StatusCode r =? StatusOK));
      [apply keeps_fail | apply keeps_io_Copy, Hp].
Qed.

(** lines 107-138: what happens under the two deferred calls *)
Lemma keeps_store ctx rc u tf dst :
  p <> tf -> p <> dst ->
  keeps p (defer (os_Remove tf)
             (bind (fetch E ctx rc u tf)
                (fun _ => bind (File_Close E tf) (fun _ => os_Rename E tf dst)))).
Proof.
  intros Hp Hd. apply keeps_defer.
  - intros w. simpl. apply lookup_delete_ne. congruence.
  - apply keeps_bind; [apply keeps_fetch, Hp|]. intros _.
    apply keeps_bind; [|intros _; apply keeps_os_Rename; assumption].
    unfold File_Close, check. destruct (close_fault E); [apply keeps_fail | apply keeps_ret].
Qed.

Lemma keeps_download client ctx args id dst :
  (forall tf, temp_file E = Ok tf -> p <> tf) ->
  p <> dst ->
  keeps p (download E client ctx args id dst).
Proof.
  intros Htf Hd. unfold download. apply keeps_bind.
  - apply keeps_pure. intros w. unfold Repositories_DownloadReleaseAsset.
    destruct (api_DownloadReleaseAsset E _ _ _ _ _) as [[rc u] [e|]]; reflexivity.
  - intros [rc u] w. unfold bind at 1, ioutil_TempFile.
    destruct (temp_file E) as [tf|e] eqn:Ht; [|reflexivity].
    specialize (Htf tf eq_refl).
    rewrite (keeps_store ctx rc u tf dst Htf Hd). simpl.
    apply lookup_insert_ne. congruence.
Qed.

(** the files of a run: away from the temporary file and from the
    destination of the asset the loop ends on, nothing changes *)
Lemma run_keeps ctx args :
  (forall tf, temp_file E = Ok tf -> p <> tf) ->
  (forall release id name,
      latest E ctx args = Ok release ->
      selectAsset path_Match (Pattern args) (Assets release) 0 "" = Ok (id, name) ->
      p <> destination name) ->
  keeps p (run path_Match E ctx args).
Proof.
  intros Htf Hd w.
  destruct (String.eqb (Owner args) "" || String.eqb (Repo args) ""
            || String.eqb (Pattern args) "") eqn:Hc.
  - unfold run. rewrite Hc. reflexivity.
  - assert (Hcomplete : complete args).
    { apply orb_false_iff in Hc as [Hc Hp]. apply orb_false_iff in Hc as [Ho Hr].
      repeat split; apply String.eqb_neq; assumption. }
    rewrite (run_complete path_Match E ctx args w Hcomplete). cbv zeta.
    destruct (latest E ctx args) as [release|e] eqn:Hl; [|reflexivity].
    destruct (selectAsset path_Match _ _ _ _) as [[id name]|e] eqn:Hs; [|reflexivity].
    destruct (String.eqb name ""); [reflexivity|].
    destruct (negb (os_IsNotExist _)); [reflexivity|].
    destruct (id =? 0); [reflexivity|].
    rewrite (keeps_download _ _ _ _ _ Htf (Hd _ _ _ eq_refl Hs)). reflexivity.
Qed.

End FrameFacts.

(** ** What the loop can return, what a stat can say, what a download does *)

Section Outcomes.

Variable path_Match : string -> string -> bool * option error.
Variable E : Env.

(** the loop returns its two variables untouched but for the last name seen,
    or the identifier and the name of the first asset that matches *)
Lemma selectAsset_sound pattern assets : forall id0 name0 id name,
  selectAsset path_Match pattern assets id0 name0 = Ok (id, name) ->
  (id = id0 /\ name = default name0 (last (map GetName assets))
   /\ Forall (rejected path_Match pattern) assets)
  \/ (exists pre a post,
        assets = (pre ++ a :: post)%list
        /\ Forall (rejected path_Match pattern) pre
        /\ matching path_Match pattern a
        /\ id = GetID a /\ name = GetName a).
Proof.
  induction assets as [|b l IH]; intros id0 name0 id name; simpl.
  - intros H. injection H as <- <-. left. repeat split. constructor.
  - destruct (path_Match pattern (GetName b)) as [ok [e|]] eqn:Hb; [discriminate|].
    destruct ok.
    + intros H. injection H as <- <-. right.
      exists [], b, l. repeat split; [constructor | exact Hb].
    + intros H. destruct (IH _ _ _ _ H) as [(Hi & Hn & Hr) | (pre & a & post & Hl & Hr & Hm & Hi & Hn)].
      * left. split; [exact Hi|]. split; [|constructor; assumption].
        rewrite Hn, last_cons. destruct (last (map GetName l)); reflexivity.
      * right. exists (b :: pre), a, post. subst l.
        repeat split; try assumption. constructor; assumption.
Qed.

Lemma stat_notexist w p :
  os_IsNotExist (stat E w p) = true -> absent E w p.
Proof.
  unfold stat, absent. destruct (files w !! p); [discriminate|].
  destruct (stat_fault E p); [discriminate|]. split; reflexivity.
Qed.

(** the requests of a download: the one for the content, then at most one
    GET, sent only when the API has given a URL and no stream *)
Lemma download_trace client ctx args id dst w :
  let ask := NetDownloadReleaseAsset client ctx (Owner args) (Repo args) id in
  let w' := snd (download E client ctx args id dst w) in
  net w' = (net w ++ [ask])%list
  \/ exists u,
       api_DownloadReleaseAsset E client ctx (Owner args) (Repo args) id = (None, u, None)
       /\ u <> ""
       /\ net w' = (net w ++ [ask; NetHttpGet ctx u])%list.
Proof.
  cbv zeta. rewrite download_steps. cbv zeta.
  destruct (api_DownloadReleaseAsset E _ _ _ _ _) as [[rc u] [e|]]; [left; reflexivity|].
  destruct (temp_file E) as [tf|e]; [|left; reflexivity].
  unfold fetch, io_Copy, File_Close, check, os_Rename, bind, http_NewRequest,
    http_DefaultClient_Do.
  destruct rc as [rc|].
  - left. destruct (write_fault E); [reflexivity|].
    destruct (read_err rc); [reflexivity|].
    destruct (close_fault E); [reflexivity|].
    destruct (rename_fault E); [reflexivity|]. simpl.
    rewrite lookup_insert_eq. reflexivity.
  - destruct (String.eqb u "") eqn:Hu; [left; reflexivity|].
    apply String.eqb_neq in Hu. simpl negb. cbv iota.
    destruct (url_fault E u); [left; reflexivity|].
    right. exists u. split; [reflexivity|]. split; [exact Hu|].
    simpl. destruct (client_Do E ctx u) as [r|e]; [|simpl; rewrite <- app_assoc; reflexivity].
    destruct (negb (StatusCode r =? StatusOK)); [simpl; rewrite <- app_assoc; reflexivity|].
    destruct (write_fault E); [simpl; rewrite <- app_assoc; reflexivity|].
    destruct (read_err (Body r)); [simpl; rewrite <- app_assoc; reflexivity|].
    destruct (close_fault E); [simpl; rewrite <- app_assoc; reflexivity|].
    destruct (rename_fault E); [simpl; rewrite <- app_assoc; reflexivity|]. simpl.
    rewrite lookup_insert_eq. simpl. rewrite <- app_assoc. reflexivity.
Qed.

(** a download that fails has changed no path, the temporary one apart *)
Lemma download_failed_keeps client ctx args id dst w p e :
  (forall tf, temp_file E = Ok tf -> p <> tf) ->
  fst (download E client ctx args id dst w) = Err e ->
  files (snd (download E client ctx args id dst w)) !! p = files w !! p.
Proof.
  intros Htf. rewrite download_steps. cbv zeta.
  destruct (api_DownloadReleaseAsset E _ _ _ _ _) as [[rc u] [e'|]]; [reflexivity|].
  destruct (temp_file E) as [tf|e'] eqn:Ht; [|reflexivity].
  specialize (Htf tf eq_refl).
  set (w3 := set_files (insert tf []) _).
  assert (H3 : files w3 !! p = files w !! p).
  { unfold w3. simpl. apply lookup_insert_ne. congruence. }
  pose proof (keeps_fetch E p ctx rc u tf Htf w3) as Hf.
  destruct (fetch E ctx rc u tf w3) as [[[]|e1] w4]; simpl in Hf.
  - unfold File_Close, check.
    destruct (close_fault E); simpl.
    + intros _. rewrite lookup_delete_ne by (intros Heq; apply Htf; symmetry; exact Heq).
      exact (eq_trans Hf H3).
    + unfold os_Rename. destruct (rename_fault E); simpl.
      * intros _. rewrite lookup_delete_ne by (intros Heq; apply Htf; symmetry; exact Heq).
      exact (eq_trans Hf H3).
      * destruct (files w4 !! tf); simpl; [discriminate|].
        intros _. rewrite lookup_delete_ne by (intros Heq; apply Htf; symmetry; exact Heq).
      exact (eq_trans Hf H3).
  - simpl. intros _. rewrite lookup_delete_ne by (intros Heq; apply Htf; symmetry; exact Heq).
      exact (eq_trans Hf H3).
Qed.

(** after a download the path of the temporary file is free, when it was
    before *)
Lemma download_tf_gone client ctx args id dst w tf :
  temp_file E = Ok tf ->
  files w !! tf = None ->
  files (snd (download E client ctx args id dst w)) !! tf = None.
Proof.
  intros Ht Hfree. rewrite download_steps. cbv zeta. rewrite Ht.
  destruct (api_DownloadReleaseAsset E _ _ _ _ _) as [[rc u] [e'|]]; [exact Hfree|].
  destruct (fetch E ctx rc u tf _) as [[[]|e1] w4]; [|apply lookup_delete_eq].
  destruct (File_Close E tf w4) as [[[]|e2] w5]; [|apply lookup_delete_eq].
  destruct (os_Rename E tf dst w5) as [r w6]. apply lookup_delete_eq.
Qed.

(** a download that ends well has put under the destination what the API,
    or the server behind its URL, has delivered in full *)
Lemma download_ok client ctx args id dst w tf :
  temp_file E = Ok tf ->
  tf <> dst ->
  fst (download E client ctx args id dst w) = Ok tt ->
  exists bytes,
    files (snd (download E client ctx args id dst w)) !! dst = Some bytes
    /\ delivered E ctx
         (api_DownloadReleaseAsset E client ctx (Owner args) (Repo args) id) bytes.
Proof.
  intros Ht Hne. rewrite download_steps. cbv zeta. rewrite Ht.
  destruct (api_DownloadReleaseAsset E _ _ _ _ _) as [[rc u] [e'|]]; [discriminate|].
  assert (Hstore : forall (src : Stream) (w3 : World),
             files w3 !! tf = Some [] ->
             let out :=
               match io_Copy E tf src w3 with
               | (Err e, w4) => (Err e, os_Remove tf w4)
               | (Ok _, w4) =>
                   match File_Close E tf w4 with
                   | (Err e, w5) => (Err e, os_Remove tf w5)
                   | (Ok _, w5) =>
                       let '(r, w6) := os_Rename E tf dst w5 in (r, os_Remove tf w6)
                   end
               end in
             fst out = Ok tt ->
             read_err src = None /\ files (snd out) !! dst = Some (data src)).
  { intros src w3 H3. unfold io_Copy, File_Close, check, os_Rename.
    destruct (write_fault E); [discriminate|].
    destruct (read_err src); [discriminate|].
    destruct (close_fault E); [discriminate|].
    destruct (rename_fault E); [discriminate|]. simpl.
    rewrite lookup_insert_eq, H3. simpl. intros _. split; [reflexivity|].
    rewrite lookup_delete_ne by exact Hne. apply lookup_insert_eq. }
  set (w3 := set_files (insert tf []) _).
  assert (H3 : files w3 !! tf = Some []) by apply lookup_insert_eq.
  destruct rc as [rc|].
  - cbn [fetch]. intros Hok.
    destruct (Hstore rc w3 H3 Hok) as [Hr Hd].
    exists (data rc). split; [exact Hd | split; [exact Hr | reflexivity]].
  - destruct (String.eqb u "") eqn:Hu.
    { apply String.eqb_eq in Hu. subst u. rewrite fetch_no_link. discriminate. }
    destruct (url_fault E u) as [e|] eqn:Hf.
    { unfold fetch, bind, http_NewRequest. rewrite Hu, Hf. discriminate. }
    destruct (client_Do E ctx u) as [r|e] eqn:Hdo.
    2:{ unfold fetch, bind, http_NewRequest, http_DefaultClient_Do.
        rewrite Hu, Hf. simpl. rewrite Hdo. discriminate. }
    apply String.eqb_neq in Hu.
    rewrite (fetch_redirect E ctx u tf w3 r Hu Hf Hdo).
    destruct (StatusCode r =? StatusOK) eqn:Hst; [|discriminate].
    simpl negb. cbv iota. intros Hok.
    destruct (Hstore (Body r) (log (NetHttpGet ctx u) w3) H3 Hok) as [Hr Hd].
    exists (data (Body r)). split; [exact Hd|].
    split; [exact Hu|]. exists r. apply Z.eqb_eq in Hst. repeat split; assumption.
Qed.

End Outcomes.

(** a run stops before it has sent anything, or after the request for the
    release, or it comes to the download of the asset the loop has ended on *)
Lemma run_inv path_Match E ctx args w :
  ((exists e, fst (run path_Match E ctx args w) = Err e)
   /\ snd (run path_Match E ctx args w) = w)
  \/ ((exists e, fst (run path_Match E ctx args w) = Err e)
      /\ complete args
      /\ snd (run path_Match E ctx args w) = log (releaseRequest E ctx args) w)
  \/ (exists release id name,
        complete args
        /\ latest E ctx args = Ok release
        /\ selectAsset path_Match (Pattern args) (Assets release) 0 "" = Ok (id, name)
        /\ name <> "" /\ id <> 0 /\ absent E w (destination name)
        /\ run path_Match E ctx args w
           = download E (runClient args) (runContext E ctx args) args id
               (destination name) (log (releaseRequest E ctx args) w)).
Proof.
  destruct (String.eqb (Owner args) "" || String.eqb (Repo args) ""
            || String.eqb (Pattern args) "") eqn:Hc.
  - left. unfold run. rewrite Hc. split; [eexists|]; reflexivity.
  - right.
    assert (Hcomplete : complete args).
    { apply orb_false_iff in Hc as [Hc Hp]. apply orb_false_iff in Hc as [Ho Hr].
      repeat split; apply String.eqb_neq; assumption. }
    rewrite (run_complete path_Match E ctx args w Hcomplete). cbv zeta.
    destruct (latest E ctx args) as [release|e] eqn:Hl;
      [|left; split; [eexists; reflexivity | split; [assumption | reflexivity]]].
    destruct (selectAsset path_Match _ _ _ _) as [[id name]|e] eqn:Hs;
      [|left; split; [eexists; reflexivity | split; [assumption | reflexivity]]].
    destruct (String.eqb name "") eqn:Hn;
      [left; split; [eexists; reflexivity | split; [assumption | reflexivity]]|].
    destruct (os_IsNotExist (stat E w (destination name))) eqn:Hd;
      [|left; split; [eexists; reflexivity | split; [assumption | reflexivity]]].
    simpl negb. cbv iota.
    destruct (id =? 0) eqn:Hi;
      [left; split; [eexists; reflexivity | split; [assumption | reflexivity]]|].
    right. exists release, id, name.
    apply String.eqb_neq in Hn. apply Z.eqb_neq in Hi. apply stat_notexist in Hd.
    repeat split; try assumption; try apply Hcomplete; apply Hd.
Qed.

(** a run sends requests of three kinds only: the one for the release, one
    for the content of an asset, one GET *)
Lemma run_requests path_Match E ctx args w :
  exists evs,
    net (snd (run path_Match E ctx args w)) = (net w ++ evs)%list
    /\ Forall (fun ev => ev = releaseRequest E ctx args
                        \/ (exists id, ev = contentRequest E ctx args id)
                        \/ (exists u, ev = redirectRequest E ctx args u)) evs.
Proof.
  destruct (run_inv path_Match E ctx args w)
    as [[_ ->] | [(_ & _ & ->) | (release & id & name & _ & _ & _ & _ & _ & _ & ->)]].
  - exists []. split; [rewrite app_nil_r; reflexivity | constructor].
  - exists [releaseRequest E ctx args]. split; [reflexivity|].
    repeat constructor.
  - destruct (download_trace E (runClient args) (runContext E ctx args) args id
                (destination name) (log (releaseRequest E ctx args) w))
      as [Hnet | (u & _ & _ & Hnet)]; cbv zeta in Hnet; rewrite Hnet; simpl;
      rewrite <- app_assoc; eexists; (split; [reflexivity|]).
    + constructor; [left; reflexivity|].
      constructor; [right; left; exists id; reflexivity | constructor].
    + constructor; [left; reflexivity|].
      constructor; [right; left; exists id; reflexivity|].
      constructor; [right; right; exists u; reflexivity | constructor].
Qed.

(** * The claims *)

(** C1: for a release with an asset whose name the pattern matches, the list
    of assets splits at the first such asset [a]: no asset before it matches,
    and the loop selects the identifier and the name of [a], whatever assets
    follow it, matching or not.  A run that goes on (the name is not empty,
    the identifier not zero, the destination free) asks the API for the
    content of that asset.  The matcher is any matcher whose errors are
    errors of the pattern, as [path.Match] is.  The example of the
    specification is the witness below. *)
Theorem C1_first_match_selected
        (path_Match : string -> string -> bool * option error) (E : Env)
        (ctx : Context) (args : runArgs) (w : World) (release : RepositoryRelease) :
  consistent path_Match ->
  complete args ->
  latest E ctx args = Ok release ->
  (exists a, a ∈ Assets release /\ matching path_Match (Pattern args) a) ->
  exists pre a post,
    Assets release = (pre ++ a :: post)%list
    /\ matching path_Match (Pattern args) a
    /\ (forall b, b ∈ pre -> fst (path_Match (Pattern args) (GetName b)) = false)
    /\ selectAsset path_Match (Pattern args) (Assets release) 0 ""
       = Ok (GetID a, GetName a)
    /\ (forall post',
          selectAsset path_Match (Pattern args) (pre ++ a :: post')%list 0 ""
          = Ok (GetID a, GetName a))
    /\ (GetName a <> "" -> GetID a <> 0 -> absent E w (destination (GetName a)) ->
        exists evs,
          net (snd (run path_Match E ctx args w))
          = (net w ++ releaseRequest E ctx args
                   :: contentRequest E ctx args (GetID a) :: evs)%list).
Proof.
  intros Hcons Hc Hl Hex.
  destruct (first_match_split path_Match (Pattern args) (Assets release))
    as (pre & a & post & Ha & Hpre & Hm).
  { destruct Hex as (a & _ & Ha). intros b _. apply (Hcons _ _ _ Ha). }
  { exact Hex. }
  exists pre, a, post.
  assert (Hsel : forall post',
             selectAsset path_Match (Pattern args) (pre ++ a :: post')%list 0 ""
             = Ok (GetID a, GetName a))
    by (intros post'; apply selectAsset_first; assumption).
  split; [exact Ha|]. split; [exact Hm|].
  split.
  { intros b Hb. rewrite Forall_forall in Hpre.
    unfold rejected in Hpre. rewrite (Hpre b Hb). reflexivity. }
  split; [rewrite Ha; apply Hsel|]. split; [exact Hsel|].
  intros Hn Hi Hd.
  rewrite (run_download path_Match E ctx args w release (GetID a) (GetName a));
    try assumption; [|rewrite Ha; apply Hsel].
  destruct (download_requests E (runClient args) (runContext E ctx args) args
              (GetID a) (destination (GetName a))
              (log (releaseRequest E ctx args) w)) as (evs & Hnet).
  exists evs. rewrite Hnet. simpl. rewrite <- app_assoc. reflexivity.
Qed.

Lemma C1_witness :
  let E := Demo.env Demo.widgets Demo.direct Demo.unreachable in
  let args := Demo.args "widget_*_linux_amd64.tar.gz" in
  (consistent path.Match
   /\ complete args
   /\ latest E Background args = Ok {| Assets := Demo.widgets |}
   /\ exists a, a ∈ Demo.widgets /\ matching path.Match (Pattern args) a)
  /\ (exists pre a post,
        Demo.widgets = (pre ++ a :: post)%list
        /\ matching path.Match (Pattern args) a
        /\ (forall b, b ∈ pre -> fst (path.Match (Pattern args) (GetName b)) = false)
        /\ selectAsset path.Match (Pattern args) Demo.widgets 0 ""
           = Ok (GetID a, GetName a)
        /\ (forall post',
              selectAsset path.Match (Pattern args) (pre ++ a :: post')%list 0 ""
              = Ok (GetID a, GetName a))
        /\ (GetName a <> "" -> GetID a <> 0 ->
            absent E (Demo.cwd []) (destination (GetName a)) ->
            exists evs,
              net (snd (run path.Match E Background args (Demo.cwd [])))
              = (net (Demo.cwd []) ++ releaseRequest E Background args
                   :: contentRequest E Background args (GetID a) :: evs)%list))
  /\ selectAsset path.Match (Pattern args) Demo.widgets 0 ""
     = Ok (2, "widget_1.2_linux_amd64.tar.gz")
  /\ destination "widget_1.2_linux_amd64.tar.gz" = "widget_1.2_linux_amd64.tar.gz"
  /\ run path.Match E Background args (Demo.cwd [])
     = (Ok tt,
        {| files := {[ "widget_1.2_linux_amd64.tar.gz" := Demo.payload ]};
           net := [NetGetLatestRelease Demo.anonymous Background "acme" "widget";
                   NetDownloadReleaseAsset Demo.anonymous Background "acme" "widget" 2] |}).
Proof.
  intros E args.
  assert (Hcons : consistent path.Match) by exact Match_consistent.
  assert (Hc : complete args) by (repeat split; discriminate).
  assert (Hl : latest E Background args = Ok {| Assets := Demo.widgets |})
    by reflexivity.
  assert (Hex : exists a, a ∈ Demo.widgets /\ matching path.Match (Pattern args) a).
  { exists Demo.linux. split; [right; left | vm_compute; reflexivity]. }
  split; [exact (conj Hcons (conj Hc (conj Hl Hex)))|].
  split; [|split; [vm_compute; reflexivity
                  | split; [reflexivity | vm_compute; reflexivity]]].
  exact (C1_first_match_selected path.Match E Background args (Demo.cwd [])
           {| Assets := Demo.widgets |} Hcons Hc Hl Hex).
Defined.

(** C2: three runs in which the pattern, "*.zip", matches no asset.  With a
    release of the one asset README.txt and a clean directory the run fails
    with the list of the names and the pattern.  With a file README.txt in
    the directory the same release makes the run fail with "file already
    exists", and a release without assets makes it fail with "empty asset
    name": in both the error names neither the assets nor the pattern. *)
Theorem C2_no_match_runs :
  let readme := Demo.env [Demo.asset 1 "README.txt"] Demo.direct Demo.unreachable in
  let bare := Demo.env [] Demo.direct Demo.unreachable in
  let asked := [NetGetLatestRelease Demo.anonymous Background "acme" "widget"] in
  run path.Match readme Background (Demo.args "*.zip") (Demo.cwd [])
  = (Err (Errorf "no assets matching pattern %q found, assets are: %v"
            [ArgString "*.zip"; ArgStrings ["README.txt"]]),
     {| files := files (Demo.cwd []); net := asked |})
  /\ run path.Match readme Background (Demo.args "*.zip") (Demo.cwd ["README.txt"])
     = (Err (Errorf "file %q already exists" [ArgString "README.txt"]),
        {| files := files (Demo.cwd ["README.txt"]); net := asked |})
  /\ run path.Match bare Background (Demo.args "*.zip") (Demo.cwd [])
     = (Err (Errorf "empty asset name" []),
        {| files := files (Demo.cwd []); net := asked |}).
Proof.
  cbv zeta. repeat split; vm_compute; reflexivity.
Qed.

(** C3, the claim as stated fails: the asset with the empty name is selected
    by "*", its destination is ".", which is there, and the run fails with
    "empty asset name", not with "file already exists". *)
Lemma C3_counterexample :
  selectAsset path.Match "*" [Demo.asset 7 ""] 0 "" = Ok (7, "")
  /\ destination "" = "."
  /\ files (Demo.cwd ["."]) !! "." = Some ["o"%byte; "l"%byte; "d"%byte]
  /\ run path.Match (Demo.env [Demo.asset 7 ""] Demo.direct Demo.unreachable)
         Background (Demo.args "*") (Demo.cwd ["."])
     = (Err (Errorf "empty asset name" []),
        {| files := files (Demo.cwd ["."]);
           net := [NetGetLatestRelease Demo.anonymous Background "acme" "widget"] |}).
Proof.
  repeat split; vm_compute; reflexivity.
Qed.

(** C3, amended: when the selected asset has a name that is not empty and a
    file of the destination name is there, the run fails with "file already
    exists"; the one request it has sent is the request for the release, none
    for content, and every file, the one in the way among them, is as it
    was. *)
Theorem C3_existing_file_stops_run
        (path_Match : string -> string -> bool * option error) (E : Env)
        (ctx : Context) (args : runArgs) (w : World)
        (release : RepositoryRelease) (pre post : list ReleaseAsset) (a : ReleaseAsset)
        (old : list Byte.byte) :
  complete args ->
  latest E ctx args = Ok release ->
  Assets release = (pre ++ a :: post)%list ->
  Forall (rejected path_Match (Pattern args)) pre ->
  matching path_Match (Pattern args) a ->
  GetName a <> "" ->
  files w !! destination (GetName a) = Some old ->
  fst (run path_Match E ctx args w)
  = Err (Errorf "file %q already exists" [ArgString (destination (GetName a))])
  /\ net (snd (run path_Match E ctx args w)) = (net w ++ [releaseRequest E ctx args])%list
  /\ asks_content (releaseRequest E ctx args) = false
  /\ files (snd (run path_Match E ctx args w)) = files w
  /\ files (snd (run path_Match E ctx args w)) !! destination (GetName a) = Some old.
Proof.
  intros Hc Hl Ha Hpre Hm Hn Hold.
  rewrite (run_exists path_Match E ctx args w release (GetID a) (GetName a) Hc Hl).
  - repeat split. exact Hold.
  - rewrite Ha. apply selectAsset_first; assumption.
  - exact Hn.
  - rewrite (stat_present E w _ old Hold). reflexivity.
Qed.

Lemma C3_witness :
  let E := Demo.env Demo.widgets Demo.direct Demo.unreachable in
  let args := Demo.args "widget_*_linux_amd64.tar.gz" in
  let w := Demo.cwd ["widget_1.2_linux_amd64.tar.gz"] in
  (complete args
   /\ latest E Background args = Ok {| Assets := Demo.widgets |}
   /\ Demo.widgets = ([Demo.darwin] ++ Demo.linux :: [])%list
   /\ Forall (rejected path.Match (Pattern args)) [Demo.darwin]
   /\ matching path.Match (Pattern args) Demo.linux
   /\ GetName Demo.linux <> ""
   /\ files w !! destination (GetName Demo.linux) = Some ["o"%byte; "l"%byte; "d"%byte])
  /\ fst (run path.Match E Background args w)
     = Err (Errorf "file %q already exists" [ArgString "widget_1.2_linux_amd64.tar.gz"])
  /\ net (snd (run path.Match E Background args w))
     = (net w ++ [releaseRequest E Background args])%list
  /\ asks_content (releaseRequest E Background args) = false
  /\ files (snd (run path.Match E Background args w)) = files w
  /\ files (snd (run path.Match E Background args w)) !! destination (GetName Demo.linux)
     = Some ["o"%byte; "l"%byte; "d"%byte].
Proof.
  intros E args w.
  assert (Hc : complete args) by (repeat split; discriminate).
  assert (Hl : latest E Background args = Ok {| Assets := Demo.widgets |})
    by reflexivity.
  assert (Hs : Demo.widgets = ([Demo.darwin] ++ Demo.linux :: [])%list)
    by reflexivity.
  assert (Hr : Forall (rejected path.Match (Pattern args)) [Demo.darwin])
    by (constructor; [vm_compute; reflexivity | constructor]).
  assert (Hm : matching path.Match (Pattern args) Demo.linux)
    by (vm_compute; reflexivity).
  assert (Hn : GetName Demo.linux <> "") by discriminate.
  assert (Hold : files w !! destination (GetName Demo.linux)
                 = Some ["o"%byte; "l"%byte; "d"%byte])
    by (vm_compute; reflexivity).
  split; [exact (conj Hc (conj Hl (conj Hs (conj Hr (conj Hm (conj Hn Hold))))))|].
  exact (C3_existing_file_stops_run path.Match E Background args w
           {| Assets := Demo.widgets |} [Demo.darwin] [] Demo.linux _
           Hc Hl Hs Hr Hm Hn Hold).
Defined.

(** C4, the claim as stated fails: the pattern "a[b" is malformed, the
    library refuses it with every name, and yet the run with it sends the
    request for the release; the error of the pattern comes after that
    request, when the loop reaches the first asset. *)
Lemma C4_counterexample :
  path.Match "a[b" "a.zip" = (false, Some ErrBadPattern)
  /\ run path.Match (Demo.env [Demo.asset 1 "a.zip"] Demo.direct Demo.unreachable)
         Background (Demo.args "a[b") (Demo.cwd [])
     = (Err ErrBadPattern,
        {| files := ∅;
           net := [NetGetLatestRelease Demo.anonymous Background "acme" "widget"] |})
  /\ net (Demo.cwd []) = [].
Proof.
  repeat split; vm_compute; reflexivity.
Qed.

(** C4, amended: with owner, repository and pattern given and the pattern
    malformed, the first thing the run does is to ask the API for the
    release.  When the API fails, the run fails with the error of the API;
    when the release has an asset, the run fails with the error the matcher
    reports on the name of the first one.  In both the request for the
    release is the only one sent, and no file is touched. *)
Theorem C4_pattern_error_after_release
        (path_Match : string -> string -> bool * option error) (E : Env)
        (ctx : Context) (args : runArgs) (w : World) :
  complete args ->
  malformed path_Match (Pattern args) ->
  (exists evs,
      net (snd (run path_Match E ctx args w))
      = (net w ++ releaseRequest E ctx args :: evs)%list)
  /\ (forall e,
        latest E ctx args = Err e ->
        run path_Match E ctx args w = (Err e, log (releaseRequest E ctx args) w))
  /\ (forall release a rest,
        latest E ctx args = Ok release ->
        Assets release = a :: rest ->
        exists e,
          snd (path_Match (Pattern args) (GetName a)) = Some e
          /\ run path_Match E ctx args w
             = (Err e, log (releaseRequest E ctx args) w)).
Proof.
  intros Hc Hbad. split; [apply run_asks_release, Hc|].
  split; [intros e Hl; apply run_release_error; assumption|].
  intros release a rest Hl Ha.
  destruct (path_Match (Pattern args) (GetName a)) as [ok [e|]] eqn:Hm.
  - exists e. split; [reflexivity|].
    apply run_select_error with (release := release); try assumption.
    rewrite Ha. apply (selectAsset_error path_Match (Pattern args) [] a rest ok e);
      [constructor | exact Hm].
  - exfalso. apply (Hbad (GetName a)). rewrite Hm. reflexivity.
Qed.

Lemma C4_witness :
  let E := Demo.env [Demo.asset 1 "a.zip"] Demo.direct Demo.unreachable in
  let args := Demo.args "a[b" in
  let w := Demo.cwd [] in
  (complete args /\ malformed path.Match (Pattern args))
  /\ (exists e,
        snd (path.Match (Pattern args) (GetName (Demo.asset 1 "a.zip"))) = Some e
        /\ run path.Match E Background args w
           = (Err e, log (releaseRequest E Background args) w))
  /\ run path.Match E Background args w
     = (Err ErrBadPattern,
        {| files := ∅;
           net := [NetGetLatestRelease Demo.anonymous Background "acme" "widget"] |}).
Proof.
  intros E args w.
  assert (Hc : complete args) by (repeat split; discriminate).
  assert (Hbad : malformed path.Match (Pattern args)).
  { apply (Match_malformed "a[b" "a.zip").
    rewrite Match_unterminated_class. discriminate. }
  split; [exact (conj Hc Hbad)|].
  split; [|vm_compute; reflexivity].
  exact (proj2 (proj2 (C4_pattern_error_after_release path.Match E Background
                         args w Hc Hbad))
           {| Assets := [Demo.asset 1 "a.zip"] |} (Demo.asset 1 "a.zip") []
           eq_refl eq_refl).
Defined.

(** C5: a release without assets and a release whose one asset has the empty
    name, matched by "*", end the run alike: the same error, "empty asset
    name", and the same world.  After the loop the two differ by the
    identifier alone, and not even by that when the asset has no identifier. *)
Theorem C5_empty_name_conflated :
  let bare := Demo.env [] Demo.direct Demo.unreachable in
  let nameless := Demo.env [Demo.asset 7 ""] Demo.direct Demo.unreachable in
  selectAsset path.Match "*" [] 0 "" = Ok (0, "")
  /\ selectAsset path.Match "*" [Demo.asset 7 ""] 0 "" = Ok (7, "")
  /\ selectAsset path.Match "*" [{| ID := None; Name := None |}] 0 "" = Ok (0, "")
  /\ run path.Match bare Background (Demo.args "*") (Demo.cwd [])
     = (Err (Errorf "empty asset name" []),
        {| files := ∅;
           net := [NetGetLatestRelease Demo.anonymous Background "acme" "widget"] |})
  /\ run path.Match nameless Background (Demo.args "*") (Demo.cwd [])
     = run path.Match bare Background (Demo.args "*") (Demo.cwd []).
Proof.
  cbv zeta. repeat split; vm_compute; reflexivity.
Qed.

(** C6, the claim as stated fails: 201 Created is a status of the 2xx class,
    and the run that gets it from the URL of the redirect fails with "invalid
    status", the temporary file removed and nothing written. *)
Lemma C6_counterexample :
  let url := "https://cdn.example/widget.tgz" in
  let created := Demo.env Demo.widgets (Demo.redirect url)
                   (Demo.response 201 "201 Created") in
  ((200 <=? 201) && (201 <? 300)) = true
  /\ (201 =? StatusOK) = false
  /\ run path.Match created Background (Demo.args "widget_*_linux_amd64.tar.gz")
        (Demo.cwd [])
     = (Err (Errorf "invalid status: %s" [ArgString "201 Created"]),
        {| files := ∅;
           net := [NetGetLatestRelease Demo.anonymous Background "acme" "widget";
                   NetDownloadReleaseAsset Demo.anonymous Background "acme" "widget" 2;
                   NetHttpGet Background url] |}).
Proof.
  cbv zeta. repeat split; vm_compute; reflexivity.
Qed.

(** C6, amended: the run has come to the download, the API has answered the
    request for the content with no stream, and the temporary file is there.
    With no URL either, the run fails with "cannot download asset release,
    don't have sensible link for that".  With a URL the run sends one GET
    request to it, under the context of the run; the status required is 200
    and no other: any other status, of the 2xx class or not, fails the run
    with "invalid status"; with the status 200 the body is appended to the
    empty temporary file, and when reading, closing and renaming succeed the
    run ends well with the body under the destination name.  On every
    failure the temporary file is gone and no destination is written. *)
Theorem C6_redirect_download
        (path_Match : string -> string -> bool * option error) (E : Env)
        (ctx : Context) (args : runArgs) (w : World)
        (release : RepositoryRelease) (id : Z) (name u tf : string) :
  complete args ->
  latest E ctx args = Ok release ->
  selectAsset path_Match (Pattern args) (Assets release) 0 "" = Ok (id, name) ->
  name <> "" ->
  id <> 0 ->
  absent E w (destination name) ->
  content E ctx args id = (None, u, None) ->
  temp_file E = Ok tf ->
  let out := run path_Match E ctx args w in
  let asked := (net w ++ [releaseRequest E ctx args; contentRequest E ctx args id])%list in
  let staged := {| files := <[tf := []]> (files w); net := asked |} in
  (u = "" ->
   out = (Err (Errorf "cannot download asset release, don't have sensible link for that" []),
          {| files := delete tf (files w); net := asked |}))
  /\ (forall r : Response,
        u <> "" ->
        url_fault E u = None ->
        client_Do E (runContext E ctx args) u = Ok r ->
        net (snd out) = (asked ++ [redirectRequest E ctx args u])%list
        /\ (StatusCode r <> 200 ->
            out = (Err (Errorf "invalid status: %s" [ArgString (Status r)]),
                   {| files := delete tf (files w);
                      net := (asked ++ [redirectRequest E ctx args u])%list |}))
        /\ (StatusCode r = 200 ->
            write_fault E = None ->
            files (snd (fetch E (runContext E ctx args) None u tf staged)) !! tf
            = Some (data (Body r))
            /\ (read_err (Body r) = None ->
                close_fault E = None ->
                rename_fault E = None ->
                tf <> destination name ->
                out = (Ok tt,
                       {| files := <[destination name := data (Body r)]>
                                     (delete tf (files w));
                          net := (asked ++ [redirectRequest E ctx args u])%list |})))).
Proof.
  intros Hc Hl Hs Hn Hi Hd Hcontent Htf out asked staged.
  assert (Hout : out = download E (runClient args) (runContext E ctx args) args id
                         (destination name) (log (releaseRequest E ctx args) w))
    by (apply run_download with (release := release); assumption).
  rewrite download_steps in Hout. cbv zeta in Hout.
  unfold content in Hcontent. rewrite Hcontent, Htf in Hout.
  assert (Hstaged : set_files (insert tf [])
                      (log (NetDownloadReleaseAsset (runClient args) (runContext E ctx args)
                              (Owner args) (Repo args) id)
                         (log (releaseRequest E ctx args) w)) = staged).
  { unfold staged, asked, set_files, log, contentRequest. simpl.
    rewrite <- app_assoc. reflexivity. }
  rewrite Hstaged in Hout.
  split.
  - intros ->. rewrite fetch_no_link in Hout. rewrite Hout.
    unfold os_Remove, set_files, staged. simpl. rewrite delete_insert_eq. reflexivity.
  - intros r Hu Hf Hr.
    rewrite (fetch_redirect E _ u tf staged r Hu Hf Hr) in Hout.
    assert (Hasked : net (log (NetHttpGet (runContext E ctx args) u) staged)
                     = (asked ++ [redirectRequest E ctx args u])%list) by reflexivity.
    destruct (StatusCode r =? StatusOK) eqn:Hst; simpl negb in *; cbv iota in *.
    + apply Z.eqb_eq in Hst. split; [|split].
      * rewrite Hout. unfold io_Copy, File_Close, check, os_Rename.
        destruct (write_fault E); [reflexivity|].
        destruct (read_err (Body r)); [reflexivity|].
        destruct (close_fault E); [reflexivity|].
        destruct (rename_fault E); [reflexivity|]. simpl.
        rewrite lookup_insert_eq. reflexivity.
      * intros Hne. contradiction.
      * intros _ Hw.
        rewrite (fetch_redirect E _ u tf staged r Hu Hf Hr).
        replace (StatusCode r =? StatusOK) with true
          by (symmetry; apply Z.eqb_eq; exact Hst).
        simpl negb. cbv iota.
        rewrite (io_Copy_written E tf (Body r) _ Hw). simpl.
        rewrite !lookup_insert_eq. split; [reflexivity|].
        intros Hread Hclose Hrename Hdst.
        rewrite (io_Copy_written E tf (Body r) _ Hw), Hread in Hout.
        unfold File_Close, check, os_Rename in Hout.
        rewrite Hclose, Hrename in Hout. simpl in Hout.
        rewrite !lookup_insert_eq in Hout. simpl in Hout.
        rewrite Hout. unfold os_Remove, set_files. simpl.
        rewrite insert_insert_eq, delete_insert_eq.
        rewrite delete_insert_ne by exact Hdst.
        rewrite delete_delete_eq. reflexivity.
    + apply Z.eqb_neq in Hst. split; [|split].
      * rewrite Hout. reflexivity.
      * intros _. rewrite Hout. unfold os_Remove, set_files. simpl.
        rewrite delete_insert_eq. reflexivity.
      * intros Heq. contradiction.
Qed.

Lemma C6_witness :
  let args := Demo.args "widget_*_linux_amd64.tar.gz" in
  let w := Demo.cwd [] in
  let url := "https://cdn.example/widget.tgz" in
  let tf := "/tmp/.github-release-asset-42" in
  let ok := Demo.env Demo.widgets (Demo.redirect url) (Demo.response 200 "200 OK") in
  let gone := Demo.env Demo.widgets (Demo.redirect url) (Demo.response 404 "404 Not Found") in
  let nolink := Demo.env Demo.widgets (Demo.redirect "") Demo.unreachable in
  let asked := [NetGetLatestRelease Demo.anonymous Background "acme" "widget";
                NetDownloadReleaseAsset Demo.anonymous Background "acme" "widget" 2] in
  (complete args
   /\ latest ok Background args = Ok {| Assets := Demo.widgets |}
   /\ selectAsset path.Match (Pattern args) Demo.widgets 0 ""
      = Ok (2, "widget_1.2_linux_amd64.tar.gz")
   /\ "widget_1.2_linux_amd64.tar.gz" <> ""
   /\ 2 <> 0
   /\ absent ok w (destination "widget_1.2_linux_amd64.tar.gz")
   /\ content ok Background args 2 = (None, url, None)
   /\ temp_file ok = Ok tf)
  /\ run path.Match ok Background args w
     = (Ok tt,
        {| files := {[ "widget_1.2_linux_amd64.tar.gz" := Demo.payload ]};
           net := (asked ++ [NetHttpGet Background url])%list |})
  /\ run path.Match gone Background args w
     = (Err (Errorf "invalid status: %s" [ArgString "404 Not Found"]),
        {| files := ∅; net := (asked ++ [NetHttpGet Background url])%list |})
  /\ run path.Match nolink Background args w
     = (Err (Errorf "cannot download asset release, don't have sensible link for that" []),
        {| files := ∅; net := asked |}).
Proof.
  intros args w url tf ok gone nolink asked.
  assert (Hc : complete args) by (repeat split; discriminate).
  assert (Hs : selectAsset path.Match (Pattern args) Demo.widgets 0 ""
               = Ok (2, "widget_1.2_linux_amd64.tar.gz")) by (vm_compute; reflexivity).
  assert (Hn : "widget_1.2_linux_amd64.tar.gz" <> "") by discriminate.
  assert (Hi : 2 <> 0) by discriminate.
  assert (Hd : forall E, stat_fault E = (fun _ => None) ->
                 absent E w (destination "widget_1.2_linux_amd64.tar.gz"))
    by (intros E HE; split; [reflexivity | rewrite HE; reflexivity]).
  assert (Hdst : tf <> destination "widget_1.2_linux_amd64.tar.gz") by discriminate.
  split; [|split; [|split]].
  - exact (conj Hc (conj eq_refl (conj Hs (conj Hn (conj Hi
             (conj (Hd ok eq_refl) (conj eq_refl eq_refl))))))).
  - pose proof (proj2 (C6_redirect_download path.Match ok Background args w
                         {| Assets := Demo.widgets |} 2 _ url tf
                         Hc eq_refl Hs Hn Hi (Hd ok eq_refl) eq_refl eq_refl)
                  {| StatusCode := 200; Status := "200 OK";
                     Body := Demo.stream Demo.payload |}) as H.
    destruct H as (_ & _ & H); [discriminate | reflexivity | reflexivity |].
    destruct H as (_ & H); [reflexivity | reflexivity |].
    rewrite H by (reflexivity || exact Hdst). vm_compute. reflexivity.
  - pose proof (proj2 (C6_redirect_download path.Match gone Background args w
                         {| Assets := Demo.widgets |} 2 _ url tf
                         Hc eq_refl Hs Hn Hi (Hd gone eq_refl) eq_refl eq_refl)
                  {| StatusCode := 404; Status := "404 Not Found";
                     Body := Demo.stream Demo.payload |}) as H.
    destruct H as (_ & H & _); [discriminate | reflexivity | reflexivity |].
    rewrite H by discriminate. vm_compute. reflexivity.
  - rewrite (proj1 (C6_redirect_download path.Match nolink Background args w
                      {| Assets := Demo.widgets |} 2 _ "" tf
                      Hc eq_refl Hs Hn Hi (Hd nolink eq_refl) eq_refl eq_refl) eq_refl).
    vm_compute. reflexivity.
Defined.

(** C7, the claim as stated fails: a name made of the separator alone has the
    destination "/", which is no path segment and no path relative to the
    current directory; it is the path the run tests and would write to. *)
Lemma C7_counterexample :
  destination "/" = "/"
  /\ filepath.hasSeparator (destination "/") = true
  /\ path.Match "/" "/" = (true, None)
  /\ fst (run path.Match (Demo.env [Demo.asset 3 "/"] Demo.direct Demo.unreachable)
            Background (Demo.args "/") (Demo.cwd ["/"]))
     = Err (Errorf "file %q already exists" [ArgString "/"]).
Proof.
  repeat split; vm_compute; reflexivity.
Qed.

(** C7, amended: the destination is a function of the name of the selected
    asset.  For a name with a character other than the separator it is the
    last element of the name: the name is a prefix, empty or closed by a
    separator, then the destination, then separators only; the destination is
    not empty and has no separator in it.  A name of separators only gives
    "/", the empty name gives ".".  Whatever the run does, a path other than
    the destination and the temporary file keeps the file it had, or none.
    And the separators in a name never make the run write outside the
    current directory: where a stat finds the root, the current directory
    and its parent, a run whose destination is "/", "." or ".." fails with no
    file changed, and a path, other than the temporary file, at which a run
    changes anything is the destination, names a direct entry of the current
    directory (one element, neither "." nor ".."), had nothing before, and
    the run has ended well. *)
Theorem C7_destination_last_element
        (path_Match : string -> string -> bool * option error) (E : Env)
        (ctx : Context) (args : runArgs) (w : World)
        (release : RepositoryRelease) (id : Z) (name : string) :
  latest E ctx args = Ok release ->
  selectAsset path_Match (Pattern args) (Assets release) 0 "" = Ok (id, name) ->
  let out := run path_Match E ctx args w in
  ((allSeparators name = false
    /\ exists pre trail,
        name = pre +:+ destination name +:+ trail
        /\ (pre = "" \/ endsWithSeparator pre = true)
        /\ allSeparators trail = true
        /\ destination name <> ""
        /\ filepath.hasSeparator (destination name) = false)
   \/ (name <> "" /\ allSeparators name = true /\ destination name = "/")
   \/ (name = "" /\ destination name = "."))
  /\ (forall p,
        (forall tf, temp_file E = Ok tf -> p <> tf) ->
        p <> destination name ->
        files (snd out) !! p = files w !! p)
  /\ (rooted E w ->
      (In (destination name) ["/"; "."; ".."] ->
       (exists e, fst out = Err e) /\ files (snd out) = files w)
      /\ (forall p,
            (forall tf, temp_file E = Ok tf -> p <> tf) ->
            files (snd out) !! p <> files w !! p ->
            p = destination name /\ entry p /\ absent E w p /\ fst out = Ok tt)).
Proof.
  intros Hl Hs out.
  assert (Hkeep : forall p,
             (forall tf, temp_file E = Ok tf -> p <> tf) ->
             p <> destination name ->
             files (snd out) !! p = files w !! p).
  { intros p Htf Hp. apply run_keeps; [exact Htf|].
    intros release' id' name' Hl' Hs'.
    rewrite Hl in Hl'. injection Hl' as <-.
    rewrite Hs in Hs'. injection Hs' as <- <-. exact Hp. }
  split; [|split; [exact Hkeep|]].
  - unfold destination. rewrite FromSlash_id.
    destruct (allSeparators name) eqn:Hsep.
    + right. destruct name as [|c name]; [right; split; reflexivity|].
      left. split; [discriminate|]. split; [reflexivity|].
      apply Base_separators; [discriminate | exact Hsep].
    + left. split; [reflexivity|].
      destruct (Base_proper name Hsep) as [Hb Hne].
      destruct (stripTrailing_split name) as (trail & Hn & Ht).
      destruct (lastElement_split (filepath.stripTrailing name)) as (pre & Hpre & Hend).
      exists pre, trail. rewrite Hb.
      split; [rewrite <- append_assoc, <- Hpre; exact Hn|].
      split; [exact Hend|]. split; [exact Ht|].
      split; [rewrite <- Hb; exact Hne | apply lastElement_flat].
  - intros Hroot.
    destruct (run_inv path_Match E ctx args w)
      as [[He Hw] | [(He & _ & Hw) |
          (release' & id' & name' & _ & Hl' & Hs' & Hn & _ & Hd & Hrun)]].
    + assert (Hfiles : files (snd out) = files w) by (unfold out; rewrite Hw; reflexivity).
      split; [intros _; split; [exact He | exact Hfiles]|].
      intros p _ Hchg. exfalso. apply Hchg. rewrite Hfiles. reflexivity.
    + assert (Hfiles : files (snd out) = files w) by (unfold out; rewrite Hw; reflexivity).
      split; [intros _; split; [exact He | exact Hfiles]|].
      intros p _ Hchg. exfalso. apply Hchg. rewrite Hfiles. reflexivity.
    + rewrite Hl in Hl'. injection Hl' as <-.
      rewrite Hs in Hs'. injection Hs' as <- <-.
      assert (Hnot : ~ In (destination name) ["/"; "."; ".."]).
      { intros Hin. apply Hroot in Hin.
        rewrite (stat_absent E w _ Hd) in Hin. discriminate Hin. }
      split; [intros Hin; contradiction|].
      intros p Htf Hchg.
      destruct (decide (p = destination name)) as [->|Hne];
        [|exfalso; apply Hchg; apply Hkeep; assumption].
      split; [reflexivity|].
      split; [|split; [exact Hd|]].
      * unfold entry.
        assert (Hdot : destination name <> "." /\ destination name <> "..").
        { split; intros Heq; apply Hnot; rewrite Heq; simpl; tauto. }
        destruct (allSeparators name) eqn:Hsep.
        { exfalso. apply Hnot. unfold destination. rewrite FromSlash_id.
          rewrite (Base_separators name Hn Hsep). left. reflexivity. }
        destruct (Base_proper name Hsep) as [Hb Hne].
        split; [unfold destination; rewrite FromSlash_id; exact Hne|].
        split; [|exact Hdot].
        unfold destination. rewrite FromSlash_id, Hb. apply lastElement_flat.
      * destruct (fst out) as [[]|e] eqn:Hres; [reflexivity|].
        exfalso. apply Hchg. unfold out in Hres |- *. rewrite Hrun in Hres |- *.
        exact (download_failed_keeps E _ _ args id _ _ _ e Htf Hres).
Qed.

Lemma C7_witness :
  let E := Demo.env [Demo.asset 9 "../../etc/passwd"] Demo.direct Demo.unreachable in
  let args := Demo.args "../../etc/*" in
  let w := Demo.cwd ["/"; "."; ".."] in
  let E' := Demo.env [Demo.asset 5 "x/.."] Demo.direct Demo.unreachable in
  let args' := Demo.args "x/*" in
  (latest E Background args = Ok {| Assets := [Demo.asset 9 "../../etc/passwd"] |}
   /\ selectAsset path.Match (Pattern args) [Demo.asset 9 "../../etc/passwd"] 0 ""
      = Ok (9, "../../etc/passwd")
   /\ latest E' Background args' = Ok {| Assets := [Demo.asset 5 "x/.."] |}
   /\ selectAsset path.Match (Pattern args') [Demo.asset 5 "x/.."] 0 "" = Ok (5, "x/..")
   /\ rooted E w /\ rooted E' w)
  /\ destination "../../etc/passwd" = "passwd"
  /\ files (snd (run path.Match E Background args w)) !! "../../etc/passwd"
     = files w !! "../../etc/passwd"
  /\ files (snd (run path.Match E Background args w))
     = <[ "passwd" := Demo.payload ]> (files w)
  /\ (entry "passwd" /\ absent E w "passwd"
      /\ fst (run path.Match E Background args w) = Ok tt)
  /\ destination "x/.." = ".."
  /\ run path.Match E' Background args' w
     = (Err (Errorf "file %q already exists" [ArgString ".."]),
        {| files := files w;
           net := [NetGetLatestRelease Demo.anonymous Background "acme" "widget"] |})
  /\ ((exists e, fst (run path.Match E' Background args' w) = Err e)
      /\ files (snd (run path.Match E' Background args' w)) = files w).
Proof.
  intros E args w E' args'.
  assert (Hl : latest E Background args
               = Ok {| Assets := [Demo.asset 9 "../../etc/passwd"] |}) by reflexivity.
  assert (Hs : selectAsset path.Match (Pattern args) [Demo.asset 9 "../../etc/passwd"] 0 ""
               = Ok (9, "../../etc/passwd")) by (vm_compute; reflexivity).
  assert (Hl' : latest E' Background args' = Ok {| Assets := [Demo.asset 5 "x/.."] |})
    by reflexivity.
  assert (Hs' : selectAsset path.Match (Pattern args') [Demo.asset 5 "x/.."] 0 ""
                = Ok (5, "x/..")) by (vm_compute; reflexivity).
  assert (Hroot : forall E0, stat_fault E0 = (fun _ => None) -> rooted E0 w).
  { intros E0 _ q [<-|[<-|[<-|[]]]]; reflexivity. }
  assert (Htf : forall p, p <> "/tmp/.github-release-asset-42" ->
                  forall tf, temp_file E = Ok tf -> p <> tf).
  { intros p Hp tf Ht. injection Ht as <-. exact Hp. }
  pose proof (C7_destination_last_element path.Match E Background args w
                {| Assets := [Demo.asset 9 "../../etc/passwd"] |} 9
                "../../etc/passwd" Hl Hs) as H.
  pose proof (C7_destination_last_element path.Match E' Background args' w
                {| Assets := [Demo.asset 5 "x/.."] |} 5 "x/.." Hl' Hs') as H'.
  cbv zeta in H, H'.
  destruct H as (_ & Hkeep & Hsafe). destruct H' as (_ & _ & Hsafe').
  destruct (Hsafe (Hroot E eq_refl)) as (_ & Hchanged).
  destruct (Hsafe' (Hroot E' eq_refl)) as (Hstop & _).
  split; [exact (conj Hl (conj Hs (conj Hl' (conj Hs'
                   (conj (Hroot E eq_refl) (Hroot E' eq_refl))))))|].
  split; [reflexivity|].
  split; [apply Hkeep; [apply Htf|]; discriminate|].
  split; [vm_compute; reflexivity|].
  split.
  { destruct (Hchanged "passwd") as (_ & He & Ha & Hok);
      [apply Htf; discriminate | vm_compute; discriminate|].
    exact (conj He (conj Ha Hok)). }
  split; [reflexivity|].
  split; [vm_compute; reflexivity|].
  apply Hstop. right. right. left. reflexivity.
Defined.

(** C8: without a [-timeout] flag the duration of the run is one minute, and
    the context of the run gets the deadline "now plus one minute": every
    request the program sends carries this deadline, and with the mandatory
    flags given the program sends at least the request for the release, with
    this deadline.  With a timeout of zero the context is left as it is, so
    that from the background context every request of the run goes out
    without a deadline, the request for the release that a run on complete
    arguments sends being one of them. *)
Theorem C8_timeout_default_minute_zero_none
        (path_Match : string -> string -> bool * option error) (E : Env)
        (cl : CommandLine) (ctx : Context) (args : runArgs) (w : World) :
  flag_timeout cl = None ->
  Timeout args = 0 ->
  let minute := {| Deadline := Some (time_Now E + 60 * 1000000000) |} in
  (Timeout (mainArgs E cl) = 60 * 1000000000
   /\ runContext E Background (mainArgs E cl) = minute
   /\ (exists evs,
         net (snd (main path_Match E cl w)) = (net w ++ evs)%list
         /\ Forall (fun ev => event_ctx ev = minute) evs)
   /\ (complete (mainArgs E cl) ->
       exists evs,
         net (snd (main path_Match E cl w))
         = (net w ++ NetGetLatestRelease (runClient (mainArgs E cl)) minute
                       (Owner (mainArgs E cl)) (Repo (mainArgs E cl)) :: evs)%list))
  /\ (runContext E ctx args = ctx
      /\ (exists evs,
            net (snd (run path_Match E Background args w)) = (net w ++ evs)%list
            /\ Forall (fun ev => Deadline (event_ctx ev) = None) evs)
      /\ (complete args ->
          exists evs,
            net (snd (run path_Match E Background args w))
            = (net w ++ NetGetLatestRelease (runClient args) Background
                          (Owner args) (Repo args) :: evs)%list)).
Proof.
  intros Hcl Hzero minute. split.
  - assert (Ht : Timeout (mainArgs E cl) = 60 * 1000000000).
    { unfold mainArgs, autoflags_Parse. simpl. rewrite Hcl. reflexivity. }
    assert (Hctx : runContext E Background (mainArgs E cl) = minute).
    { unfold runContext. rewrite Ht. reflexivity. }
    assert (Hmain : snd (main path_Match E cl w)
                    = snd (run path_Match E Background (mainArgs E cl) w)).
    { unfold main.
      destruct (run path_Match E Background (mainArgs E cl) w) as [[[]|e] w'];
        reflexivity. }
    split; [exact Ht|]. split; [exact Hctx|]. split.
    + destruct (run_sends_under path_Match E Background (mainArgs E cl) w)
        as (evs & Hnet & Hevs).
      exists evs. rewrite Hmain. split; [exact Hnet|].
      rewrite Hctx in Hevs. exact Hevs.
    + intros Hc.
      destruct (run_asks_release path_Match E Background (mainArgs E cl) w Hc)
        as (evs & Hnet).
      exists evs. rewrite Hmain, Hnet. unfold releaseRequest. rewrite Hctx.
      reflexivity.
  - assert (Hctx : forall c, runContext E c args = c).
    { intros c. unfold runContext. rewrite Hzero. reflexivity. }
    split; [apply Hctx|]. split.
    + destruct (run_sends_under path_Match E Background args w) as (evs & Hnet & Hevs).
      exists evs. split; [exact Hnet|].
      rewrite Hctx in Hevs.
      eapply Forall_impl; [exact Hevs|]. intros ev ->. reflexivity.
    + intros Hc.
      destruct (run_asks_release path_Match E Background args w Hc) as (evs & Hnet).
      exists evs. rewrite Hnet. unfold releaseRequest. rewrite Hctx. reflexivity.
Qed.

Lemma C8_witness :
  let E := Demo.env [Demo.asset 1 "a.zip"] Demo.direct Demo.unreachable in
  let cl := Demo.commandLine "*.zip" in
  let args := Demo.args "*.zip" in
  let minute := {| Deadline := Some (1000 + 60 * 1000000000) |} in
  (flag_timeout cl = None /\ Timeout args = 0)
  /\ net (snd (main path.Match E cl (Demo.cwd [])))
     = [NetGetLatestRelease Demo.anonymous minute "acme" "widget";
        NetDownloadReleaseAsset Demo.anonymous minute "acme" "widget" 1]
  /\ net (snd (run path.Match E Background args (Demo.cwd [])))
     = [NetGetLatestRelease Demo.anonymous Background "acme" "widget";
        NetDownloadReleaseAsset Demo.anonymous Background "acme" "widget" 1]
  /\ (Timeout (mainArgs E cl) = 60 * 1000000000
      /\ runContext E Background (mainArgs E cl) = minute
      /\ (exists evs,
            net (snd (main path.Match E cl (Demo.cwd [])))
            = (net (Demo.cwd []) ++ evs)%list
            /\ Forall (fun ev => event_ctx ev = minute) evs)
      /\ (complete (mainArgs E cl) ->
          exists evs,
            net (snd (main path.Match E cl (Demo.cwd [])))
            = (net (Demo.cwd [])
               ++ NetGetLatestRelease (runClient (mainArgs E cl)) minute
                    (Owner (mainArgs E cl)) (Repo (mainArgs E cl)) :: evs)%list))
  /\ (runContext E Background args = Background
      /\ (exists evs,
            net (snd (run path.Match E Background args (Demo.cwd [])))
            = (net (Demo.cwd []) ++ evs)%list
            /\ Forall (fun ev => Deadline (event_ctx ev) = None) evs)
      /\ (complete args ->
          exists evs,
            net (snd (run path.Match E Background args (Demo.cwd [])))
            = (net (Demo.cwd [])
               ++ NetGetLatestRelease (runClient args) Background
                    (Owner args) (Repo args) :: evs)%list)).
Proof.
  intros E cl args minute.
  split; [split; reflexivity|].
  split; [vm_compute; reflexivity|].
  split; [vm_compute; reflexivity|].
  exact (C8_timeout_default_minute_zero_none path.Match E cl Background args
           (Demo.cwd []) eq_refl eq_refl).
Defined.

(** C9: a run whose owner, repository or pattern is the empty string fails
    at once with the error "one or more mandatory flags missing"; the world
    is as before, so nothing was sent to the API.  The same holds for the
    whole command when the flags leave it with such arguments: it exits with
    status 1 and that error. *)
Theorem C9_missing_flag_fails_fast
        (path_Match : string -> string -> bool * option error) (E : Env)
        (ctx : Context) (args : runArgs) (w : World) :
  Owner args = "" \/ Repo args = "" \/ Pattern args = "" ->
  run path_Match E ctx args w
  = (Err (Errorf "one or more mandatory flags missing" []), w)
  /\ net (snd (run path_Match E ctx args w)) = net w
  /\ (forall cl,
        mainArgs E cl = args ->
        main path_Match E cl w
        = (1, Some (Errorf "one or more mandatory flags missing" []), w)).
Proof.
  intros Hargs.
  pose proof (run_incomplete path_Match E ctx args w Hargs) as Hrun.
  split; [exact Hrun|]. split; [rewrite Hrun; reflexivity|].
  intros cl Hcl. unfold main. rewrite Hcl.
  rewrite (run_incomplete path_Match E Background args w Hargs). reflexivity.
Qed.

Lemma C9_witness :
  let E := Demo.env [Demo.asset 1 "a.zip"] Demo.direct Demo.unreachable in
  let cl := {| flag_owner := Some "acme"; flag_repo := Some "widget";
               flag_pattern := None; flag_timeout := None |} in
  let args := mainArgs E cl in
  (Owner args = "" \/ Repo args = "" \/ Pattern args = "")
  /\ run path.Match E Background args (Demo.cwd [])
     = (Err (Errorf "one or more mandatory flags missing" []), Demo.cwd [])
  /\ main path.Match E cl (Demo.cwd [])
     = (1, Some (Errorf "one or more mandatory flags missing" []), Demo.cwd []).
Proof.
  intros E cl args.
  assert (H : Owner args = "" \/ Repo args = "" \/ Pattern args = "")
    by (right; right; reflexivity).
  split; [exact H|].
  destruct (C9_missing_flag_fails_fast path.Match E Background args (Demo.cwd []) H)
    as (Hrun & _ & Hmain).
  split; [exact Hrun | exact (Hmain cl eq_refl)].
Defined.

(** C10: when the first matching asset has the identifier 0 (its name not
    empty, its destination free), the run asks for no content: it fails with
    the error "no assets matching pattern", listing the names of all the
    assets of the release, after the one request for the release.  A run in
    which no asset matches at all, and which passes the two tests on the name
    the loop has left, ends with the same error in the same world. *)
Theorem C10_zero_identifier_means_no_match
        (path_Match : string -> string -> bool * option error) (E : Env)
        (ctx : Context) (args : runArgs) (w : World)
        (release : RepositoryRelease) (pre post : list ReleaseAsset) (a : ReleaseAsset) :
  complete args ->
  latest E ctx args = Ok release ->
  Assets release = (pre ++ a :: post)%list ->
  Forall (rejected path_Match (Pattern args)) pre ->
  matching path_Match (Pattern args) a ->
  GetID a = 0 ->
  GetName a <> "" ->
  absent E w (destination (GetName a)) ->
  run path_Match E ctx args w
  = (Err (Errorf "no assets matching pattern %q found, assets are: %v"
            [ArgString (Pattern args); ArgStrings (map GetName (Assets release))]),
     log (releaseRequest E ctx args) w)
  /\ (forall none : string -> string -> bool * option error,
        Forall (rejected none (Pattern args)) (Assets release) ->
        default "" (last (map GetName (Assets release))) <> "" ->
        absent E w (destination (default "" (last (map GetName (Assets release))))) ->
        run none E ctx args w = run path_Match E ctx args w).
Proof.
  intros Hc Hl Ha Hpre Hm Hid Hn Hd.
  assert (Hrun : run path_Match E ctx args w
                 = (Err (Errorf "no assets matching pattern %q found, assets are: %v"
                           [ArgString (Pattern args);
                            ArgStrings (map GetName (Assets release))]),
                    log (releaseRequest E ctx args) w)).
  { apply run_id_zero with (name := GetName a); try assumption.
    rewrite Ha, <- Hid. apply selectAsset_first; assumption. }
  split; [exact Hrun|].
  intros none Hnone Hlast Habs.
  rewrite Hrun, (run_no_match none E ctx args w release Hc Hl Hnone).
  apply String.eqb_neq in Hlast. rewrite Hlast, (stat_absent _ _ _ Habs).
  reflexivity.
Qed.

Lemma C10_witness :
  let tool := Demo.asset 0 "tool.zip" in
  let notes := Demo.asset 5 "notes.txt" in
  let E := Demo.env [notes; tool] Demo.direct Demo.unreachable in
  let args := Demo.args "*.zip" in
  (complete args
   /\ latest E Background args = Ok {| Assets := [notes; tool] |}
   /\ [notes; tool] = ([notes] ++ tool :: [])%list
   /\ Forall (rejected path.Match (Pattern args)) [notes]
   /\ matching path.Match (Pattern args) tool
   /\ GetID tool = 0
   /\ GetName tool <> ""
   /\ absent E (Demo.cwd []) (destination (GetName tool)))
  /\ run path.Match E Background args (Demo.cwd [])
     = (Err (Errorf "no assets matching pattern %q found, assets are: %v"
               [ArgString "*.zip"; ArgStrings ["notes.txt"; "tool.zip"]]),
        {| files := ∅;
           net := [NetGetLatestRelease Demo.anonymous Background "acme" "widget"] |}).
Proof.
  intros tool notes E args.
  assert (Hc : complete args) by (repeat split; discriminate).
  assert (Hl : latest E Background args = Ok {| Assets := [notes; tool] |})
    by reflexivity.
  assert (Hs : [notes; tool] = ([notes] ++ tool :: [])%list) by reflexivity.
  assert (Hr : Forall (rejected path.Match (Pattern args)) [notes])
    by (constructor; [vm_compute; reflexivity | constructor]).
  assert (Hm : matching path.Match (Pattern args) tool) by (vm_compute; reflexivity).
  assert (Hi : GetID tool = 0) by reflexivity.
  assert (Hn : GetName tool <> "") by discriminate.
  assert (Hd : absent E (Demo.cwd []) (destination (GetName tool)))
    by (split; reflexivity).
  split; [exact (conj Hc (conj Hl (conj Hs (conj Hr (conj Hm (conj Hi (conj Hn Hd)))))))|].
  exact (proj1 (C10_zero_identifier_means_no_match path.Match E Background args
                  (Demo.cwd []) {| Assets := [notes; tool] |} [notes] [] tool
                  Hc Hl Hs Hr Hm Hi Hn Hd)).
Defined.

(** * Further properties of [run] *)

(** X1 (lines 99-114, 135-138): the run has come to the download and the
    API answers the request for the content with a stream.  Then the stream
    is what the run reads: it sends no GET, also when the answer carries a
    URL beside the stream.  When reading breaks, the run fails with the
    error of the read and the temporary file is gone; when reading, closing
    and renaming succeed, the run ends well with the bytes of the stream
    under the destination name. *)
Theorem X1_stream_download
        (path_Match : string -> string -> bool * option error) (E : Env)
        (ctx : Context) (args : runArgs) (w : World)
        (release : RepositoryRelease) (id : Z) (name u tf : string) (rc : Stream) :
  complete args ->
  latest E ctx args = Ok release ->
  selectAsset path_Match (Pattern args) (Assets release) 0 "" = Ok (id, name) ->
  name <> "" ->
  id <> 0 ->
  absent E w (destination name) ->
  content E ctx args id = (Some rc, u, None) ->
  temp_file E = Ok tf ->
  let out := run path_Match E ctx args w in
  let asked := (net w ++ [releaseRequest E ctx args; contentRequest E ctx args id])%list in
  net (snd out) = asked
  /\ (forall e : error,
        write_fault E = None ->
        read_err rc = Some e ->
        out = (Err e, {| files := delete tf (files w); net := asked |}))
  /\ (write_fault E = None ->
      read_err rc = None ->
      close_fault E = None ->
      rename_fault E = None ->
      tf <> destination name ->
      out = (Ok tt,
             {| files := <[destination name := data rc]> (delete tf (files w));
                net := asked |})).
Proof.
  intros Hc Hl Hs Hn Hi Hd Hcontent Htf out asked.
  assert (Hout : out = download E (runClient args) (runContext E ctx args) args id
                         (destination name) (log (releaseRequest E ctx args) w))
    by (apply run_download with (release := release); assumption).
  rewrite download_steps in Hout. cbv zeta in Hout.
  unfold content in Hcontent. rewrite Hcontent, Htf in Hout.
  unfold fetch in Hout.
  assert (Hasked : net (log (NetDownloadReleaseAsset (runClient args)
                               (runContext E ctx args) (Owner args) (Repo args) id)
                          (log (releaseRequest E ctx args) w)) = asked).
  { unfold asked, log, contentRequest. simpl. rewrite <- app_assoc. reflexivity. }
  split; [|split].
  - rewrite Hout. unfold io_Copy, File_Close, check, os_Rename.
    destruct (write_fault E); [exact Hasked|].
    destruct (read_err rc); [exact Hasked|].
    destruct (close_fault E); [exact Hasked|].
    destruct (rename_fault E); [exact Hasked|]. simpl.
    rewrite lookup_insert_eq. simpl. rewrite <- app_assoc. reflexivity.
  - intros e Hw Hread.
    rewrite (io_Copy_written E tf rc _ Hw), Hread in Hout.
    rewrite Hout. unfold os_Remove, set_files. simpl.
    rewrite insert_insert_eq, delete_insert_eq, <- app_assoc. reflexivity.
  - intros Hw Hread Hclose Hrename Hdst.
    rewrite (io_Copy_written E tf rc _ Hw), Hread in Hout.
    unfold File_Close, check, os_Rename in Hout.
    rewrite Hclose, Hrename in Hout. simpl in Hout.
    rewrite !lookup_insert_eq in Hout. simpl in Hout.
    rewrite Hout. unfold os_Remove, set_files. simpl.
    rewrite insert_insert_eq, delete_insert_eq.
    rewrite delete_insert_ne by exact Hdst.
    rewrite delete_delete_eq, <- app_assoc. reflexivity.
Qed.

Lemma X1_witness :
  let args := Demo.args "widget_*_linux_amd64.tar.gz" in
  let w := Demo.cwd ["README.md"] in
  let tf := "/tmp/.github-release-asset-42" in
  let both := (Some (Demo.stream Demo.payload), "https://cdn.example/widget.tgz",
               @None error) in
  let E := Demo.env Demo.widgets both Demo.unreachable in
  let asked := [NetGetLatestRelease Demo.anonymous Background "acme" "widget";
                NetDownloadReleaseAsset Demo.anonymous Background "acme" "widget" 2] in
  (complete args
   /\ latest E Background args = Ok {| Assets := Demo.widgets |}
   /\ selectAsset path.Match (Pattern args) Demo.widgets 0 ""
      = Ok (2, "widget_1.2_linux_amd64.tar.gz")
   /\ "widget_1.2_linux_amd64.tar.gz" <> ""
   /\ 2 <> 0
   /\ absent E w (destination "widget_1.2_linux_amd64.tar.gz")
   /\ content E Background args 2 = both
   /\ temp_file E = Ok tf)
  /\ run path.Match E Background args w
     = (Ok tt,
        {| files := <[ "widget_1.2_linux_amd64.tar.gz" := Demo.payload ]>
                      (delete tf (files w));
           net := asked |}).
Proof.
  intros args w tf both E asked.
  assert (Hc : complete args) by (repeat split; discriminate).
  assert (Hs : selectAsset path.Match (Pattern args) Demo.widgets 0 ""
               = Ok (2, "widget_1.2_linux_amd64.tar.gz")) by (vm_compute; reflexivity).
  assert (Hn : "widget_1.2_linux_amd64.tar.gz" <> "") by discriminate.
  assert (Hi : 2 <> 0) by discriminate.
  assert (Hd : absent E w (destination "widget_1.2_linux_amd64.tar.gz"))
    by (split; reflexivity).
  assert (Hdst : tf <> destination "widget_1.2_linux_amd64.tar.gz") by discriminate.
  split; [exact (conj Hc (conj eq_refl (conj Hs (conj Hn (conj Hi
                   (conj Hd (conj eq_refl eq_refl)))))))|].
  pose proof (X1_stream_download path.Match E Background args w
                {| Assets := Demo.widgets |} 2 "widget_1.2_linux_amd64.tar.gz"
                "https://cdn.example/widget.tgz" tf (Demo.stream Demo.payload)
                Hc eq_refl Hs Hn Hi Hd eq_refl eq_refl) as H.
  cbv zeta in H. destruct H as (_ & _ & H).
  apply H; first [exact Hdst | reflexivity].
Defined.

(** X2 (lines 50-139): a run that fails leaves every file as it was: at any
    path other than the one of the temporary file, what is there after the
    run is what was there before.  A failed download writes no destination. *)
Theorem X2_failed_run_keeps_files
        (path_Match : string -> string -> bool * option error) (E : Env)
        (ctx : Context) (args : runArgs) (w : World) (e : error) (p : string) :
  fst (run path_Match E ctx args w) = Err e ->
  (forall tf, temp_file E = Ok tf -> p <> tf) ->
  files (snd (run path_Match E ctx args w)) !! p = files w !! p.
Proof.
  intros Herr Htf.
  destruct (run_inv path_Match E ctx args w)
    as [[_ Hw] | [(_ & _ & Hw) | (release & id & name & _ & _ & _ & _ & _ & _ & Hrun)]].
  - rewrite Hw. reflexivity.
  - rewrite Hw. reflexivity.
  - rewrite Hrun in Herr |- *.
    exact (download_failed_keeps E _ _ args id _ _ p e Htf Herr).
Qed.

Lemma X2_witness :
  let args := Demo.args "widget_*_linux_amd64.tar.gz" in
  let w := Demo.cwd ["README.md"] in
  let E := Demo.env Demo.widgets (Demo.redirect "https://cdn.example/widget.tgz")
             (Demo.response 404 "404 Not Found") in
  let e := Errorf "invalid status: %s" [ArgString "404 Not Found"] in
  let p := "widget_1.2_linux_amd64.tar.gz" in
  (fst (run path.Match E Background args w) = Err e
   /\ (forall tf, temp_file E = Ok tf -> p <> tf))
  /\ files (snd (run path.Match E Background args w)) !! p = files w !! p.
Proof.
  intros args w E e p.
  assert (H1 : fst (run path.Match E Background args w) = Err e)
    by (vm_compute; reflexivity).
  assert (H2 : forall tf, temp_file E = Ok tf -> p <> tf)
    by (intros tf Htf; injection Htf as <-; discriminate).
  split; [exact (conj H1 H2)|].
  exact (X2_failed_run_keeps_files path.Match E Background args w e p H1 H2).
Defined.

(** X3 (lines 103-108): a run leaves no temporary file behind, however it
    ends: the path that ioutil.TempFile gives, free before the run, is free
    after it. *)
Theorem X3_no_temporary_file_left
        (path_Match : string -> string -> bool * option error) (E : Env)
        (ctx : Context) (args : runArgs) (w : World) (tf : string) :
  temp_file E = Ok tf ->
  files w !! tf = None ->
  files (snd (run path_Match E ctx args w)) !! tf = None.
Proof.
  intros Htf Hfree.
  destruct (run_inv path_Match E ctx args w)
    as [[_ Hw] | [(_ & _ & Hw) | (release & id & name & _ & _ & _ & _ & _ & _ & Hrun)]].
  - rewrite Hw. exact Hfree.
  - rewrite Hw. exact Hfree.
  - rewrite Hrun. apply download_tf_gone; assumption.
Qed.

Lemma X3_witness :
  let args := Demo.args "widget_*_linux_amd64.tar.gz" in
  let w := Demo.cwd ["README.md"] in
  let E := Demo.env Demo.widgets (Demo.redirect "https://cdn.example/widget.tgz")
             (Demo.response 200 "200 OK") in
  let tf := "/tmp/.github-release-asset-42" in
  (temp_file E = Ok tf /\ files w !! tf = None)
  /\ fst (run path.Match E Background args w) = Ok tt
  /\ files (snd (run path.Match E Background args w)) !! tf = None.
Proof.
  intros args w E tf.
  split; [split; reflexivity|].
  split; [vm_compute; reflexivity|].
  exact (X3_no_temporary_file_left path.Match E Background args w tf eq_refl eq_refl).
Defined.

(** X4 (lines 51-98): a run ends well only after it has selected a real
    asset and found its place free.  The arguments are complete, the API has
    given a release, and the assets of the release split at a first match:
    the matcher accepts the name of one asset and has rejected all before
    it; that asset has an identifier other than 0 and a non-empty name, and
    before the run there was nothing at the destination of that name.  So a
    run never overwrites a file, and never ends well when nothing matches. *)
Theorem X4_success_selected_fresh
        (path_Match : string -> string -> bool * option error) (E : Env)
        (ctx : Context) (args : runArgs) (w : World) :
  fst (run path_Match E ctx args w) = Ok tt ->
  complete args
  /\ exists release pre a post,
       latest E ctx args = Ok release
       /\ Assets release = (pre ++ a :: post)%list
       /\ Forall (rejected path_Match (Pattern args)) pre
       /\ matching path_Match (Pattern args) a
       /\ GetID a <> 0
       /\ GetName a <> ""
       /\ absent E w (destination (GetName a)).
Proof.
  intros Hok.
  destruct (run_inv path_Match E ctx args w)
    as [[[e He] _] | [([e He] & _) |
        (release & id & name & Hc & Hl & Hs & Hn & Hi & Hd & _)]];
    [rewrite He in Hok; discriminate Hok..|].
  split; [exact Hc|].
  destruct (selectAsset_sound path_Match (Pattern args) (Assets release) 0 "" id name Hs)
    as [(Hz & _) | (pre & a & post & Hsplit & Hpre & Hm & -> & ->)];
    [contradiction|].
  exists release, pre, a, post.
  exact (conj Hl (conj Hsplit (conj Hpre (conj Hm (conj Hi (conj Hn Hd)))))).
Qed.

Lemma X4_witness :
  let args := Demo.args "widget_*_linux_amd64.tar.gz" in
  let w := Demo.cwd ["README.md"] in
  let E := Demo.env Demo.widgets Demo.direct Demo.unreachable in
  fst (run path.Match E Background args w) = Ok tt
  /\ complete args
  /\ exists release pre a post,
       latest E Background args = Ok release
       /\ Assets release = (pre ++ a :: post)%list
       /\ Forall (rejected path.Match (Pattern args)) pre
       /\ matching path.Match (Pattern args) a
       /\ GetID a <> 0
       /\ GetName a <> ""
       /\ absent E w (destination (GetName a)).
Proof.
  intros args w E.
  assert (H : fst (run path.Match E Background args w) = Ok tt)
    by (vm_compute; reflexivity).
  split; [exact H|].
  exact (X4_success_selected_fresh path.Match E Background args w H).
Defined.

(** X5 (lines 99-138): what a run that ends well has written.  With the
    release the API gave, the asset the loop selected and the temporary file
    distinct from the destination: after the run the destination holds
    exactly the bytes the download delivered, which are the bytes of the
    stream of the API, read without error, or, when the API gave no stream,
    the body, read without error, of the response with status 200 to the GET
    of the URL the API gave. *)
Theorem X5_success_delivers
        (path_Match : string -> string -> bool * option error) (E : Env)
        (ctx : Context) (args : runArgs) (w : World)
        (release : RepositoryRelease) (id : Z) (name tf : string) :
  latest E ctx args = Ok release ->
  selectAsset path_Match (Pattern args) (Assets release) 0 "" = Ok (id, name) ->
  temp_file E = Ok tf ->
  tf <> destination name ->
  fst (run path_Match E ctx args w) = Ok tt ->
  exists bytes,
    files (snd (run path_Match E ctx args w)) !! destination name = Some bytes
    /\ delivered E (runContext E ctx args) (content E ctx args id) bytes.
Proof.
  intros Hl Hs Htf Hdst Hok.
  destruct (run_inv path_Match E ctx args w)
    as [[[e He] _] | [([e He] & _) |
        (release' & id' & name' & _ & Hl' & Hs' & _ & _ & _ & Hrun)]];
    [rewrite He in Hok; discriminate Hok..|].
  rewrite Hl in Hl'. injection Hl' as <-.
  rewrite Hs in Hs'. injection Hs' as <- <-.
  rewrite Hrun in Hok |- *.
  exact (download_ok E _ _ args id _ _ tf Htf Hdst Hok).
Qed.

Lemma X5_witness :
  let args := Demo.args "widget_*_linux_amd64.tar.gz" in
  let w := Demo.cwd ["README.md"] in
  let E := Demo.env Demo.widgets (Demo.redirect "https://cdn.example/widget.tgz")
             (Demo.response 200 "200 OK") in
  let tf := "/tmp/.github-release-asset-42" in
  let name := "widget_1.2_linux_amd64.tar.gz" in
  (latest E Background args = Ok {| Assets := Demo.widgets |}
   /\ selectAsset path.Match (Pattern args) Demo.widgets 0 "" = Ok (2, name)
   /\ temp_file E = Ok tf
   /\ tf <> destination name
   /\ fst (run path.Match E Background args w) = Ok tt)
  /\ exists bytes,
       files (snd (run path.Match E Background args w)) !! destination name = Some bytes
       /\ delivered E (runContext E Background args) (content E Background args 2) bytes.
Proof.
  intros args w E tf name.
  assert (Hs : selectAsset path.Match (Pattern args) Demo.widgets 0 "" = Ok (2, name))
    by (vm_compute; reflexivity).
  assert (Hdst : tf <> destination name) by discriminate.
  assert (Hok : fst (run path.Match E Background args w) = Ok tt)
    by (vm_compute; reflexivity).
  split; [exact (conj eq_refl (conj Hs (conj eq_refl (conj Hdst Hok))))|].
  exact (X5_success_delivers path.Match E Background args w {| Assets := Demo.widgets |}
           2 name tf eq_refl Hs eq_refl Hdst Hok).
Defined.

(** X6 (lines 51-134): the requests of a run, in their order.  A run sends
    nothing; or the request for the release alone; or that one and then one
    request for the content of an asset, whose identifier is not 0; or after
    these two one GET, and then the API has answered the request for the
    content with no stream, no error, and the non-empty URL the GET goes to.
    A run that has not asked for content has changed no file. *)
Theorem X6_request_sequence
        (path_Match : string -> string -> bool * option error) (E : Env)
        (ctx : Context) (args : runArgs) (w : World) :
  let w' := snd (run path_Match E ctx args w) in
  (net w' = net w /\ files w' = files w)
  \/ (net w' = (net w ++ [releaseRequest E ctx args])%list /\ files w' = files w)
  \/ (exists id,
        id <> 0
        /\ net w' = (net w ++ [releaseRequest E ctx args;
                               contentRequest E ctx args id])%list)
  \/ (exists id u,
        id <> 0
        /\ net w' = (net w ++ [releaseRequest E ctx args; contentRequest E ctx args id;
                               redirectRequest E ctx args u])%list
        /\ content E ctx args id = (None, u, None) /\ u <> "").
Proof.
  cbv zeta.
  destruct (run_inv path_Match E ctx args w)
    as [[_ ->] | [(_ & _ & ->) | (release & id & name & _ & _ & _ & _ & Hi & _ & ->)]].
  - left. split; reflexivity.
  - right. left. split; reflexivity.
  - right. right.
    destruct (download_trace E (runClient args) (runContext E ctx args) args id
                (destination name) (log (releaseRequest E ctx args) w))
      as [Hnet | (u & Hc & Hu & Hnet)]; cbv zeta in Hnet; rewrite Hnet.
    + left. exists id. split; [exact Hi|].
      simpl. rewrite <- app_assoc. reflexivity.
    + right. exists id, u. split; [exact Hi|]. split; [|split; assumption].
      simpl. rewrite <- app_assoc. reflexivity.
Qed.

(** X7 (lines 89-91): the test of the destination is "the stat did not fail
    with not-exist".  So when nothing is at the destination and the stat
    fails for another reason (permission denied, say), the run reports
    "file ... already exists" and stops after the request for the release,
    with no file changed. *)
Theorem X7_stat_fault_reported_as_existing
        (path_Match : string -> string -> bool * option error) (E : Env)
        (ctx : Context) (args : runArgs) (w : World)
        (release : RepositoryRelease) (id : Z) (name msg : string) :
  complete args ->
  latest E ctx args = Ok release ->
  selectAsset path_Match (Pattern args) (Assets release) 0 "" = Ok (id, name) ->
  name <> "" ->
  files w !! destination name = None ->
  stat_fault E (destination name) = Some msg ->
  run path_Match E ctx args w
  = (Err (Errorf "file %q already exists" [ArgString (destination name)]),
     log (releaseRequest E ctx args) w).
Proof.
  intros Hc Hl Hs Hn Hfree Hfault.
  apply run_exists with (release := release) (id := id); try assumption.
  rewrite (stat_fault_err E w _ msg Hfree Hfault). reflexivity.
Qed.

Lemma X7_witness :
  let args := Demo.args "widget_*_linux_amd64.tar.gz" in
  let w := Demo.cwd ["README.md"] in
  let name := "widget_1.2_linux_amd64.tar.gz" in
  let E := Demo.denying name (Demo.env Demo.widgets Demo.direct Demo.unreachable) in
  (complete args
   /\ latest E Background args = Ok {| Assets := Demo.widgets |}
   /\ selectAsset path.Match (Pattern args) Demo.widgets 0 "" = Ok (2, name)
   /\ name <> ""
   /\ files w !! destination name = None
   /\ stat_fault E (destination name) = Some "permission denied")
  /\ run path.Match E Background args w
     = (Err (Errorf "file %q already exists" [ArgString name]),
        {| files := files w;
           net := [NetGetLatestRelease Demo.anonymous Background "acme" "widget"] |}).
Proof.
  intros args w name E.
  assert (Hc : complete args) by (repeat split; discriminate).
  assert (Hs : selectAsset path.Match (Pattern args) Demo.widgets 0 "" = Ok (2, name))
    by (vm_compute; reflexivity).
  assert (Hn : name <> "") by discriminate.
  split; [exact (conj Hc (conj eq_refl (conj Hs (conj Hn (conj eq_refl eq_refl)))))|].
  exact (X7_stat_fault_reported_as_existing path.Match E Background args w
           {| Assets := Demo.widgets |} 2 name "permission denied"
           Hc eq_refl Hs Hn eq_refl eq_refl).
Defined.

(** X8 (lines 28-38, 54-58): the deadline of the requests of the program.
    With t the value of the flag -timeout, one minute when the flag is not
    given: every request main sends carries the deadline "now + t" when t is
    positive, and no deadline when t is zero or negative. *)
Theorem X8_main_deadline
        (path_Match : string -> string -> bool * option error) (E : Env)
        (cl : CommandLine) (w : World) :
  let t := default Minute (flag_timeout cl) in
  exists evs,
    net (snd (main path_Match E cl w)) = (net w ++ evs)%list
    /\ Forall (fun ev => Deadline (event_ctx ev)
                         = if 0 <? t then Some (time_Now E + t) else None) evs.
Proof.
  intros t.
  destruct (run_sends_under path_Match E Background (mainArgs E cl) w)
    as (evs & Hnet & Hctx).
  exists evs. split.
  - unfold main. destruct (run path_Match E Background (mainArgs E cl) w) as [[[]|e] w'];
      exact Hnet.
  - eapply Forall_impl; [exact Hctx|].
    intros ev ->. unfold runContext, WithTimeout, Background.
    change (Timeout (mainArgs E cl)) with t.
    destruct (0 <? t); reflexivity.
Qed.

(** X9 (lines 28-33, 59-66): the token of the requests of the program.  The
    token has no flag: it is the value of GITHUB_TOKEN, whatever the command
    line.  Every request main sends to the API is sent by a client that
    carries this value as its access token, and by a client without token
    when the value is empty. *)
Theorem X9_main_token
        (path_Match : string -> string -> bool * option error) (E : Env)
        (cl : CommandLine) (w : World) :
  let token := os_Getenv E "GITHUB_TOKEN" in
  exists evs,
    net (snd (main path_Match E cl w)) = (net w ++ evs)%list
    /\ Forall (fun ev => forall c, event_client ev = Some c ->
                 AccessToken c = if String.eqb token "" then None else Some token) evs.
Proof.
  intros token.
  destruct (run_requests path_Match E Background (mainArgs E cl) w)
    as (evs & Hnet & Hkind).
  exists evs. split.
  - unfold main. destruct (run path_Match E Background (mainArgs E cl) w) as [[[]|e] w'];
      exact Hnet.
  - eapply Forall_impl; [exact Hkind|].
    assert (Hclient : AccessToken (runClient (mainArgs E cl))
                      = if String.eqb token "" then None else Some token).
    { unfold runClient. change (Token (mainArgs E cl)) with token.
      destruct (String.eqb token ""); reflexivity. }
    intros ev [-> | [[id ->] | [u ->]]] c Hc; simpl in Hc.
    + injection Hc as <-. exact Hclient.
    + injection Hc as <-. exact Hclient.
    + discriminate Hc.
Qed.

(** X10 (lines 99-106): the run has come to the download.  When the API
    answers the request for the content with an error, or when it answers
    without error and no temporary file can be created, the run fails with
    that very error, after the requests for the release and for the content,
    with no file changed. *)
Theorem X10_download_refused
        (path_Match : string -> string -> bool * option error) (E : Env)
        (ctx : Context) (args : runArgs) (w : World)
        (release : RepositoryRelease) (id : Z) (name : string) :
  complete args ->
  latest E ctx args = Ok release ->
  selectAsset path_Match (Pattern args) (Assets release) 0 "" = Ok (id, name) ->
  name <> "" ->
  id <> 0 ->
  absent E w (destination name) ->
  let out := run path_Match E ctx args w in
  let asked := {| files := files w;
                  net := (net w ++ [releaseRequest E ctx args;
                                    contentRequest E ctx args id])%list |} in
  (forall rc u e, content E ctx args id = (rc, u, Some e) -> out = (Err e, asked))
  /\ (forall rc u e,
        content E ctx args id = (rc, u, None) ->
        temp_file E = Err e ->
        out = (Err e, asked)).
Proof.
  intros Hc Hl Hs Hn Hi Hd out asked.
  assert (Hout : out = download E (runClient args) (runContext E ctx args) args id
                         (destination name) (log (releaseRequest E ctx args) w))
    by (apply run_download with (release := release); assumption).
  rewrite download_steps in Hout. cbv zeta in Hout.
  assert (Hasked : log (NetDownloadReleaseAsset (runClient args)
                          (runContext E ctx args) (Owner args) (Repo args) id)
                     (log (releaseRequest E ctx args) w) = asked).
  { unfold asked, log, contentRequest. simpl. rewrite <- app_assoc. reflexivity. }
  rewrite Hasked in Hout. unfold content.
  split.
  - intros rc u e Hcontent. rewrite Hcontent in Hout. exact Hout.
  - intros rc u e Hcontent Htf. rewrite Hcontent, Htf in Hout. exact Hout.
Qed.

Lemma X10_witness :
  let args := Demo.args "widget_*_linux_amd64.tar.gz" in
  let w := Demo.cwd ["README.md"] in
  let name := "widget_1.2_linux_amd64.tar.gz" in
  let E := Demo.full (Demo.env Demo.widgets Demo.direct Demo.unreachable) in
  (complete args
   /\ latest E Background args = Ok {| Assets := Demo.widgets |}
   /\ selectAsset path.Match (Pattern args) Demo.widgets 0 "" = Ok (2, name)
   /\ name <> ""
   /\ 2 <> 0
   /\ absent E w (destination name))
  /\ run path.Match E Background args w
     = (Err (ExternalError "no space left on device"),
        {| files := files w;
           net := [NetGetLatestRelease Demo.anonymous Background "acme" "widget";
                   NetDownloadReleaseAsset Demo.anonymous Background "acme" "widget" 2] |}).
Proof.
  intros args w name E.
  assert (Hc : complete args) by (repeat split; discriminate).
  assert (Hs : selectAsset path.Match (Pattern args) Demo.widgets 0 "" = Ok (2, name))
    by (vm_compute; reflexivity).
  assert (Hn : name <> "") by discriminate.
  assert (Hi : 2 <> 0) by discriminate.
  assert (Hd : absent E w (destination name)) by (split; reflexivity).
  split; [exact (conj Hc (conj eq_refl (conj Hs (conj Hn (conj Hi Hd)))))|].
  exact (proj2 (X10_download_refused path.Match E Background args w
                  {| Assets := Demo.widgets |} 2 name Hc eq_refl Hs Hn Hi Hd)
           (Some (Demo.stream Demo.payload)) "" (ExternalError "no space left on device")
           eq_refl eq_refl).
Defined.
